(** * Verification of the book-listing endpoint (main.go)

    A shallow embedding of [getBooks] and [makeGetBooksHandler] from
    [src/main.go], together with the parts of the Go standard library the
    two functions call ([strings.TrimSpace], [strconv.Atoi],
    [url.Values.Get], [fmt.Sprintf], [strings.Join], [database/sql] cursors,
    [encoding/json]), and the properties of the query-parameter validation
    and SQL construction. *)

From Stdlib Require Import ZArith List String Ascii Lia Bool DecimalString
  DecimalPos.
From stdpp Require Import base gmap strings.

Local Open Scope string_scope.
Local Open Scope Z_scope.

(** ** Go strings as byte sequences

    A Go [string] is a sequence of bytes; Rocq's [string] of 8-bit [ascii]
    characters is the same data. *)

Module GoString.

Definition byteVal (c : ascii) : Z := Z.of_N (N_of_ascii c).

Definition bytes (s : string) : list Z := List.map byteVal (list_ascii_of_string s).

Definition ofBytes (l : list Z) : string :=
  string_of_list_ascii (List.map (fun b => ascii_of_N (Z.to_N b)) l).

End GoString.

(** ** unicode/utf8 and unicode.IsSpace *)

Module utf8.
Import GoString.

Definition RuneError : Z := 0xFFFD.
Definition RuneSelf : Z := 0x80.
Definition UTFMax : nat := 4.

(** The [first] table of utf8.go together with [acceptRanges]: for a lead
    byte of a multi-byte sequence, the size of the sequence and the range
    allowed for its second byte; [None] for the bytes that start no
    sequence (0x80..0xC1 and 0xF5..0xFF). *)
Definition first (b : Z) : option (nat * Z * Z) :=
  if b <? 0xC2 then None
  else if b <=? 0xDF then Some (2%nat, 0x80, 0xBF)
  else if b =? 0xE0 then Some (3%nat, 0xA0, 0xBF)
  else if b <=? 0xEC then Some (3%nat, 0x80, 0xBF)
  else if b =? 0xED then Some (3%nat, 0x80, 0x9F)
  else if b <=? 0xEF then Some (3%nat, 0x80, 0xBF)
  else if b =? 0xF0 then Some (4%nat, 0x90, 0xBF)
  else if b <=? 0xF3 then Some (4%nat, 0x80, 0xBF)
  else if b =? 0xF4 then Some (4%nat, 0x80, 0x8F)
  else None.

(** [b] is outside the continuation range 0x80..0xBF ([locb]..[hicb]). *)
Definition notCont (b : Z) : bool := (b <? 0x80) || (0xBF <? b).

(** [utf8.DecodeRuneInString]: the first rune of [s] and its width in
    bytes; an invalid or short encoding is [(RuneError, 1)], the empty
    string [(RuneError, 0)]. *)
Definition DecodeRune (s : list Z) : Z * nat :=
  match s with
  | [] => (RuneError, 0%nat)
  | s0 :: t =>
    if s0 <? RuneSelf then (s0, 1%nat)
    else
      match first s0 with
      | None => (RuneError, 1%nat)
      | Some (sz, lo, hi) =>
        match t with
        | [] => (RuneError, 1%nat)
        | s1 :: t1 =>
          if (s1 <? lo) || (hi <? s1) then (RuneError, 1%nat)
          else
            match sz with
            | 2%nat =>
              (Z.lor (Z.shiftl (Z.land s0 0x1F) 6) (Z.land s1 0x3F), 2%nat)
            | _ =>
              match t1 with
              | [] => (RuneError, 1%nat)
              | s2 :: t2 =>
                if notCont s2 then (RuneError, 1%nat)
                else
                  match sz with
                  | 3%nat =>
                    (Z.lor (Z.lor (Z.shiftl (Z.land s0 0x0F) 12)
                                  (Z.shiftl (Z.land s1 0x3F) 6))
                           (Z.land s2 0x3F), 3%nat)
                  | _ =>
                    match t2 with
                    | [] => (RuneError, 1%nat)
                    | s3 :: _ =>
                      if notCont s3 then (RuneError, 1%nat)
                      else
                        (Z.lor (Z.lor (Z.lor (Z.shiftl (Z.land s0 0x07) 18)
                                             (Z.shiftl (Z.land s1 0x3F) 12))
                                      (Z.shiftl (Z.land s2 0x3F) 6))
                               (Z.land s3 0x3F), 4%nat)
                    end
                  end
              end
            end
        end
      end
  end.

(** [utf8.RuneStart]: [b] is not a continuation byte. *)
Definition RuneStart (b : Z) : bool := negb (Z.land b 0xC0 =? 0x80).

(** The backward scan of [utf8.DecodeLastRuneInString], on the reversed
    string [b1 :: b2 :: ...] (last byte first): the number of bytes, from
    the end, at which decoding starts.  The scan looks at the bytes
    before the last one, stops at the first rune start, never goes
    further back than [UTFMax] bytes and never before the string's
    start. *)
Definition lastStart (rs : list Z) : nat :=
  match rs with
  | [] => 0%nat
  | [_] => 1%nat
  | _ :: b2 :: r2 =>
    if RuneStart b2 then 2%nat
    else match r2 with
         | [] => 2%nat
         | b3 :: r3 =>
           if RuneStart b3 then 3%nat
           else match r3 with
                | [] => 3%nat
                | b4 :: r4 =>
                  if RuneStart b4 then 4%nat
                  else match r4 with
                       | [] => 4%nat
                       | _ :: _ => 5%nat
                       end
                end
         end
  end.

(** [utf8.DecodeLastRuneInString]: the last rune of [s] and its width. *)
Definition DecodeLastRune (s : list Z) : Z * nat :=
  match rev s with
  | [] => (RuneError, 0%nat)
  | b1 :: _ =>
    if b1 <? RuneSelf then (b1, 1%nat)
    else
      let k := lastStart (rev s) in
      let '(r, size) := DecodeRune (skipn (length s - k) s) in
      if Nat.eqb size k then (r, size) else (RuneError, 1%nat)
  end.

(** [utf8.AppendRune], for the code points below 0x10000 that are not
    surrogates (all that the properties below encode). *)
Definition EncodeRune (r : Z) : list Z :=
  if r <? 0x80 then [r]
  else if r <? 0x800 then
    [Z.lor 0xC0 (Z.shiftr r 6); Z.lor 0x80 (Z.land r 0x3F)]
  else
    [Z.lor 0xE0 (Z.shiftr r 12);
     Z.lor 0x80 (Z.land (Z.shiftr r 6) 0x3F);
     Z.lor 0x80 (Z.land r 0x3F)].

End utf8.

Module unicode.

Definition MaxLatin1 : Z := 0xFF.

(** [unicode.IsSpace]: the Latin-1 switch, and beyond Latin-1 the
    [White_Space] range table. *)
Definition IsSpace (r : Z) : bool :=
  if r <=? MaxLatin1 then
    (r =? 0x09) || (r =? 0x0A) || (r =? 0x0B) || (r =? 0x0C) || (r =? 0x0D)
    || (r =? 0x20) || (r =? 0x85) || (r =? 0xA0)
  else
    (r =? 0x1680) || ((0x2000 <=? r) && (r <=? 0x200A))
    || (r =? 0x2028) || (r =? 0x2029) || (r =? 0x202F) || (r =? 0x205F)
    || (r =? 0x3000).

End unicode.

(** ** package strings *)

Module strings.
Import GoString.

(** [strings.TrimLeftFunc(s, unicode.IsSpace)]: drop leading runes while
    they are white space.  Every step drops at least one byte, so the
    length of the string is enough fuel. *)
Fixpoint trimLeftSpace (fuel : nat) (s : list Z) : list Z :=
  match fuel with
  | O => s
  | S fuel' =>
    match s with
    | [] => []
    | _ :: _ =>
      let '(r, w) := utf8.DecodeRune s in
      if unicode.IsSpace r then trimLeftSpace fuel' (skipn w s) else s
    end
  end.

(** [strings.TrimRightFunc(s, unicode.IsSpace)]: drop trailing runes while
    they are white space. *)
Fixpoint trimRightSpace (fuel : nat) (s : list Z) : list Z :=
  match fuel with
  | O => s
  | S fuel' =>
    match s with
    | [] => []
    | _ :: _ =>
      let '(r, w) := utf8.DecodeLastRune s in
      if unicode.IsSpace r then trimRightSpace fuel' (firstn (length s - w) s)
      else s
    end
  end.

(** [strings.TrimSpace]: all leading and trailing white space removed, as
    defined by Unicode.  (The library's ASCII fast path computes the same
    slice as the rune-wise trimming it falls back to.) *)
Definition TrimSpace (s : string) : string :=
  let b := bytes s in
  let l := trimLeftSpace (length b) b in
  ofBytes (trimRightSpace (length l) l).

(** [strings.Join]. *)
Fixpoint Join (elems : list string) (sep : string) : string :=
  match elems with
  | [] => ""
  | [e] => e
  | e :: rest => e ++ sep ++ Join rest sep
  end.

End strings.

(** ** package strconv *)

Module strconv.
Import GoString.

(** Go's [int] on the 64-bit platforms the server is built for. *)
Definition intSize : Z := 64.
Definition maxInt : Z := 2 ^ (intSize - 1) - 1.
Definition minInt : Z := - 2 ^ (intSize - 1).

Definition digitVal (c : ascii) : option Z :=
  let n := byteVal c in
  if (48 <=? n) && (n <=? 57) then Some (n - 48) else None.

(** The digit loop: base 10, no underscores, any other byte is a syntax
    error. *)
Fixpoint parseDigits (s : string) (acc : Z) : option Z :=
  match s with
  | EmptyString => Some acc
  | String c t =>
    match digitVal c with
    | Some d => parseDigits t (acc * 10 + d)
    | None => None
    end
  end.

(** [strconv.Atoi]: an optional sign, then at least one decimal digit and
    nothing else; a value outside [int] is a range error.  [None] stands
    for a non-nil [err]. *)
Definition Atoi (s : string) : option Z :=
  match s with
  | EmptyString => None
  | String c t =>
    let neg := Ascii.eqb c "-" in
    let body := if neg || Ascii.eqb c "+" then t else s in
    match body with
    | EmptyString => None
    | String _ _ =>
      match parseDigits body 0 with
      | None => None
      | Some n =>
        let v := if neg then - n else n in
        if (minInt <=? v) && (v <=? maxInt) then Some v else None
      end
    end
  end.

(** [strconv.Itoa] / the [%d] verb of [fmt]. *)
Definition Itoa (n : Z) : string := NilZero.string_of_int (Z.to_int n).

End strconv.

(** ** package fmt: the verbs the program uses *)

Module fmt.

(** The dynamic values the program stores in its [[]interface{}]: the
    trimmed genre (a [string]) and the limit and offset (an [int]). *)
Inductive value : Type :=
| VString (s : string)
| VInt (n : Z).

(** [%v] of one value. *)
Definition verbV (v : value) : string :=
  match v with
  | VString s => s
  | VInt n => strconv.Itoa n
  end.

(** [%v] of a [[]interface{}]: the elements between brackets, separated
    by one space. *)
Definition verbVslice (args : list value) : string :=
  "[" ++ strings.Join (List.map verbV args) " " ++ "]".

End fmt.

(** ** package net/url *)

Module url.

(** [url.Values]: [map[string][]string]. *)
Abbreviation Values := (gmap string (list string)).

(** [Values.Get]: the first value of the key, or the empty string. *)
Definition Get (v : Values) (key : string) : string :=
  match v !! key with
  | Some (x :: _) => x
  | _ => ""
  end.

End url.

(** ** Data model *)

Record Book : Type := mkBook {
  ID : Z;
  Title : string;
  Price : Z;
  Genre : string
}.

(** A Go slice value is either [nil] or a (possibly empty) sequence. *)
Inductive slice (A : Type) : Type :=
| Nil
| Slice (elems : list A).
Arguments Nil {A}.
Arguments Slice {A} elems.

Definition elems {A} (s : slice A) : list A :=
  match s with
  | Nil => []
  | Slice l => l
  end.

Definition len {A} (s : slice A) : nat := length (elems s).

(** The built-in [append] with one element: the result is never [nil]. *)
Definition append {A} (s : slice A) (x : A) : slice A := Slice (elems s ++ [x])%list.

(** Go [error] values: those the program makes with [fmt.Errorf], and those
    that come out of [database/sql] (driver, context and scan errors). *)
Inductive error : Type :=
| Errorf (msg : string)
| SqlError (msg : string).

Definition Error (e : error) : string :=
  match e with
  | Errorf msg => msg
  | SqlError msg => msg
  end.

(** The request, as far as the handler reads it: [r.URL.Query()]. *)
Record Request : Type := mkRequest {
  Query : url.Values
}.

(** ** The environment of one invocation *)

(** What [rows.Scan] gives for one row of the cursor. *)
Inductive scanned : Type :=
| ScanOk (b : Book)
| ScanErr (e : error).

(** A [*sql.Rows] cursor: the rows [rows.Next] steps through, and the
    terminal error [rows.Err] reports once [Next] has returned false. *)
Record Rows : Type := mkRows {
  Rows_next : list scanned;
  Rows_Err : option error
}.

(** The database handle under the caller's context, and the clock.
    [QueryContext query args] is what [db.QueryContext(ctx, query, args...)]
    answers (a cancelled context shows as an error answer or as a terminal
    cursor error); [sinceMs] is [time.Since(start).Milliseconds()]. *)
Record Env : Type := mkEnv {
  QueryContext : string -> list fmt.value -> error + Rows;
  sinceMs : Z
}.

(** What an invocation does to the outside world, in order. *)
Inductive event : Type :=
| EvQueryContext (query : string) (args : list fmt.value)
| EvLogPrintf (line : string)
| EvRowsClose.

(** ** Early returns and effects

    [getBooks] returns from seven places and performs three kinds of
    effects; the computation threads the trace of events and stops at the
    first [Return]. *)

Module Exec.

Inductive outcome (R A : Type) : Type :=
| Continue (a : A)
| Return (r : R).
Arguments Continue {R A} a.
Arguments Return {R A} r.

Definition t (R A : Type) : Type := list event -> outcome R A * list event.

Definition pure {R A} (a : A) : t R A := fun tr => (Continue a, tr).

Definition bind {R A B} (m : t R A) (k : A -> t R B) : t R B :=
  fun tr =>
    match m tr with
    | (Continue a, tr') => k a tr'
    | (Return r, tr') => (Return r, tr')
    end.

Definition ret {R A} (r : R) : t R A := fun tr => (Return r, tr).

Definition emit {R} (e : event) : t R unit := fun tr => (Continue tt, (tr ++ [e])%list).

(** [defer]: the event happens when the rest of the function is left, by
    whichever return. *)
Definition defer {R A} (e : event) (body : t R A) : t R A :=
  fun tr => let '(o, tr') := body tr in (o, (tr' ++ [e])%list).

Definition run {R} (m : t R R) : R * list event :=
  match m [] with
  | (Continue r, tr) => (r, tr)
  | (Return r, tr) => (r, tr)
  end.

End Exec.

Notation "'do' x <- m ; k" := (Exec.bind m (fun x => k))
  (at level 10, x name, m at level 100, k at level 200).

(** ** getBooks *)

Import strings strconv fmt url.

Definition defaultLimit : Z := 10.
Definition maxLimit : Z := 100.

(** The result triple [([]Book, int64, error)]. *)
Definition Result : Type := slice Book * Z * option error.

(** The [limit] block (main.go, lines 71-82): default, parse, reject,
    clamp. *)
Definition resolveLimit (q : Values) : error + Z :=
  let limit := defaultLimit in
  let s := TrimSpace (Get q "limit") in
  match
    (if negb (s =? "")%string then
       match Atoi s with
       | Some v => if v >? 0 then inr v else inl (Errorf "invalid limit")
       | None => inl (Errorf "invalid limit")
       end
     else inr limit)
  with
  | inl e => inl e
  | inr limit => inr (if limit >? maxLimit then maxLimit else limit)
  end.

(** The [offset] block (lines 84-91). *)
Definition resolveOffset (q : Values) : error + Z :=
  let offset := 0 in
  let s := TrimSpace (Get q "offset") in
  if negb (s =? "")%string then
    match Atoi s with
    | Some v => if v >=? 0 then inr v else inl (Errorf "invalid offset")
    | None => inl (Errorf "invalid offset")
    end
  else inr offset.

(** The [switch sortParam] block (lines 95-105). *)
Definition resolveOrderBy (q : Values) : error + string :=
  let sortParam := TrimSpace (Get q "sort") in
  let orderBy := "" in
  if (sortParam =? "")%string then inr orderBy
  else if (sortParam =? "price_asc")%string then inr "price ASC"
  else if (sortParam =? "price_desc")%string then inr "price DESC"
  else inl (Errorf "invalid sort value").

(** The construction of the statement and of its argument list (lines
    107-132): [args] and [where] grow by appends, the builder [sb] by
    writes. *)
Definition buildQuery (genre orderBy : string) (limit offset : Z)
  : string * list value :=
  let args : list value := [] in
  let where_ : list string := [] in
  let '(args, where_) :=
    if negb (genre =? "")%string then
      let args := (args ++ [VString genre])%list in
      (args, (where_ ++ [("genre = $" ++ Itoa (Z.of_nat (length args)))%string])%list)
    else (args, where_) in
  let sb := "SELECT id, title, price, genre FROM books" in
  let sb :=
    if (0 <? length where_)%nat then sb ++ " WHERE " ++ Join where_ " AND "
    else sb in
  let sb :=
    if negb (orderBy =? "")%string then sb ++ (" ORDER BY " ++ orderBy)
    else sb in
  let args := (args ++ [VInt limit])%list in
  let sb := sb ++ (" LIMIT $" ++ Itoa (Z.of_nat (length args))) in
  let args := (args ++ [VInt offset])%list in
  let sb := sb ++ (" OFFSET $" ++ Itoa (Z.of_nat (length args))) in
  (sb, args).

(** The [for rows.Next()] loop (lines 146-153), from the nil [books]. *)
Fixpoint scanRows (rows : list scanned) (books : slice Book) : error + slice Book :=
  match rows with
  | [] => inr books
  | ScanErr e :: _ => inl e
  | ScanOk b :: rest => scanRows rest (append books b)
  end.

(** A failed validation leaves the function at once. *)
Definition orReturn {A} (x : error + A) : Exec.t Result A :=
  match x with
  | inl e => Exec.ret (Nil, 0, Some e)
  | inr a => Exec.pure a
  end.

Definition logLine (query : string) (args : list value) (elapsed : Z) : string :=
  "SQL: " ++ query ++ " | args=" ++ verbVslice args
          ++ " | took=" ++ Itoa elapsed ++ "ms".

Definition getBooks (env : Env) (r : Request) : Exec.t Result Result :=
  let q := Query r in
  do limit <- orReturn (resolveLimit q);
  do offset <- orReturn (resolveOffset q);
  let genre := TrimSpace (Get q "genre") in
  do orderBy <- orReturn (resolveOrderBy q);
  let '(query, args) := buildQuery genre orderBy limit offset in
  do _ <- Exec.emit (EvQueryContext query args);
  let answer := QueryContext env query args in
  let elapsed := sinceMs env in
  do _ <- Exec.emit (EvLogPrintf (logLine query args elapsed));
  match answer with
  | inl err => Exec.ret (Nil, elapsed, Some err)
  | inr rows =>
    Exec.defer EvRowsClose
      (match scanRows (Rows_next rows) Nil with
       | inl err => Exec.ret (Nil, elapsed, Some err)
       | inr books =>
         match Rows_Err rows with
         | Some err => Exec.ret (Nil, elapsed, Some err)
         | None => Exec.ret (books, elapsed, None)
         end
       end)
  end.

(** ** makeGetBooksHandler *)

Module json.

#[warnings="-register-all"]
Inductive t : Type :=
| Null
| Number (n : Z)
| Str (s : string)
| Object (fields : list (string * t))
| Array (elems : list t).

Definition ofBook (b : Book) : t :=
  Object [("id", Number (ID b)); ("title", Str (Title b));
          ("price", Number (Price b)); ("genre", Str (Genre b))].

(** What [Encoder.Encode] writes for a [[]Book], as a JSON value (the
    indentation set by [SetIndent] only adds white space): a nil slice is
    the JSON [null], any other slice a JSON array. *)
Definition Marshal (books : slice Book) : t :=
  match books with
  | Nil => Null
  | Slice l => Array (List.map ofBook l)
  end.

End json.

Module http.

Definition StatusOK : Z := 200.
Definition StatusBadRequest : Z := 400.

Inductive body : Type :=
| Text (s : string)
| JSON (j : json.t).

(** What the handler leaves in the [ResponseWriter]. *)
Record Response : Type := mkResponse {
  StatusCode : Z;
  ContentType : string;
  XQueryTime : string;
  Body : body
}.

End http.

Definition newline : string := String (ascii_of_nat 10) "".

(** The handler: [getBooks], the two headers, then either [http.Error]
    (which replaces the content type and writes the message and a newline
    under the status it is given) or the JSON encoding of the books under
    the implicit 200. *)
Definition makeGetBooksHandler (env : Env) (r : Request)
  : http.Response * list event :=
  let '((books, queryTimeMs, err), tr) := Exec.run (getBooks env r) in
  let contentType := "application/json" in
  let xQueryTime := Itoa queryTimeMs ++ "ms" in
  match err with
  | Some e =>
    (http.mkResponse http.StatusBadRequest "text/plain; charset=utf-8"
                     xQueryTime (http.Text (Error e ++ newline)), tr)
  | None =>
    (http.mkResponse http.StatusOK contentType xQueryTime
                     (http.JSON (json.Marshal books)), tr)
  end.

(** ** Sample requests and environments *)

Definition req (kvs : list (string * string)) : Request :=
  mkRequest (list_to_map (List.map (fun kv => (fst kv, [snd kv])) kvs)).

Definition sampleBooks : list scanned :=
  [ScanOk (mkBook 2 "B" 10 "Fiction"); ScanOk (mkBook 3 "C" 20 "Fiction")].

Definition envRows (rows : list scanned) (e : option error) (ms : Z) : Env :=
  mkEnv (fun _ _ => inr (mkRows rows e)) ms.


(** The spec's [InvalidParameter(name)], as the program words it with
    [fmt.Errorf] for each of the three validated parameters. *)
Definition InvalidParameter (name : string) : error :=
  if (name =? "sort")%string then Errorf "invalid sort value"
  else Errorf ("invalid " ++ name).

(** The database calls and the log records of a trace. *)
Definition queryCalls (tr : list event) : list (string * list value) :=
  flat_map (fun e => match e with
                     | EvQueryContext q a => [(q, a)]
                     | _ => []
                     end) tr.

Definition logRecords (tr : list event) : list string :=
  flat_map (fun e => match e with
                     | EvLogPrintf l => [l]
                     | _ => []
                     end) tr.

(** What follows the database call: the result, and the cursor's release
    when there is a cursor. *)
Definition afterQuery (answer : error + Rows) (elapsed : Z)
  : Result * list event :=
  match answer with
  | inl err => ((Nil, elapsed, Some err), [])
  | inr rows =>
    (match scanRows (Rows_next rows) Nil with
     | inl err => (Nil, elapsed, Some err)
     | inr books =>
       match Rows_Err rows with
       | Some err => (Nil, elapsed, Some err)
       | None => (books, elapsed, None)
       end
     end, [EvRowsClose])
  end.

(** The validated sort choices, and the statement texts the spec allows:
    one per choice and per presence of a genre filter. *)
Inductive sortChoice : Type :=
| SortNone
| SortPriceAsc
| SortPriceDesc.

Definition sortChoiceOf (sortParam : string) : option sortChoice :=
  if (sortParam =? "")%string then Some SortNone
  else if (sortParam =? "price_asc")%string then Some SortPriceAsc
  else if (sortParam =? "price_desc")%string then Some SortPriceDesc
  else None.

Definition sqlTemplate (hasGenre : bool) (c : sortChoice) : string :=
  match hasGenre, c with
  | false, SortNone =>
    "SELECT id, title, price, genre FROM books LIMIT $1 OFFSET $2"
  | false, SortPriceAsc =>
    "SELECT id, title, price, genre FROM books ORDER BY price ASC LIMIT $1 OFFSET $2"
  | false, SortPriceDesc =>
    "SELECT id, title, price, genre FROM books ORDER BY price DESC LIMIT $1 OFFSET $2"
  | true, SortNone =>
    "SELECT id, title, price, genre FROM books WHERE genre = $1 LIMIT $2 OFFSET $3"
  | true, SortPriceAsc =>
    "SELECT id, title, price, genre FROM books WHERE genre = $1 ORDER BY price ASC LIMIT $2 OFFSET $3"
  | true, SortPriceDesc =>
    "SELECT id, title, price, genre FROM books WHERE genre = $1 ORDER BY price DESC LIMIT $2 OFFSET $3"
  end.

Definition sqlTemplates : list string :=
  [sqlTemplate false SortNone; sqlTemplate false SortPriceAsc;
   sqlTemplate false SortPriceDesc; sqlTemplate true SortNone;
   sqlTemplate true SortPriceAsc; sqlTemplate true SortPriceDesc].

(** The bound arguments: the genre when there is one, the limit, the
    offset. *)
Definition boundArgs (genre : string) (limit offset : Z) : list value :=
  ((if (genre =? "")%string then [] else [VString genre])
     ++ [VInt limit; VInt offset])%list.

(** The [ORDER BY] clause of each accepted sort value. *)
Definition orderClause (sortParam : string) : string :=
  if (sortParam =? "price_asc")%string then " ORDER BY price ASC"
  else if (sortParam =? "price_desc")%string then " ORDER BY price DESC"
  else "".

(** Parameter values the validation rules reject. *)
Definition limitMalformed (q : Values) : Prop :=
  let s := TrimSpace (Get q "limit") in
  s <> "" /\ forall v, Atoi s = Some v -> v <= 0.

Definition offsetMalformed (q : Values) : Prop :=
  let s := TrimSpace (Get q "offset") in
  s <> "" /\ forall v, Atoi s = Some v -> v < 0.

Definition sortValues : list string := [""; "price_asc"; "price_desc"].

Definition sortMalformed (q : Values) : Prop :=
  ~ In (TrimSpace (Get q "sort")) sortValues.

(** The rule on [sort], read for every request whatever its other
    parameters. *)
Definition sort_rule_for_every_request : Prop :=
  forall env r,
    let sortParam := TrimSpace (Get (Query r) "sort") in
    ((exists orderBy, resolveOrderBy (Query r) = inr orderBy)
     <-> In sortParam sortValues)
    /\ (sortMalformed (Query r) ->
        fst (Exec.run (getBooks env r)) = (Nil, 0, Some (InvalidParameter "sort")))
    /\ (sortParam = "" ->
        forall query args,
          In (query, args) (queryCalls (snd (Exec.run (getBooks env r)))) ->
          query = sqlTemplate false SortNone \/ query = sqlTemplate true SortNone).

(** The rule on [offset], read for every request whatever its other
    parameters. *)
Definition offset_rule_for_every_request : Prop :=
  forall env r,
    let s := TrimSpace (Get (Query r) "offset") in
    ((Query r !! "offset" = None \/ s = "") -> resolveOffset (Query r) = inr 0)
    /\ (forall v, Atoi s = Some v -> 0 <= v -> resolveOffset (Query r) = inr v)
    /\ (offsetMalformed (Query r) ->
        fst (Exec.run (getBooks env r)) = (Nil, 0, Some (InvalidParameter "offset"))).

(** One log record for every invocation, with the statement, the arguments
    and the elapsed time. *)
Definition one_log_record_for_every_invocation : Prop :=
  forall env r,
    exists query args elapsed,
      logRecords (snd (Exec.run (getBooks env r))) = [logLine query args elapsed].

(** A string of white space only: the UTF-8 encoding of a sequence of
    runes that [unicode.IsSpace] accepts. *)
Definition onlySpace (s : string) : Prop :=
  exists rs : list Z,
    Forall (fun r => unicode.IsSpace r = true) rs
    /\ GoString.bytes s = concat (List.map utf8.EncodeRune rs).

(** The white-space runes, in code-point order. *)
Definition spaceRunes : list Z :=
  [0x09; 0x0A; 0x0B; 0x0C; 0x0D; 0x20; 0x85; 0xA0; 0x1680;
   0x2000; 0x2001; 0x2002; 0x2003; 0x2004; 0x2005; 0x2006; 0x2007; 0x2008;
   0x2009; 0x200A; 0x2028; 0x2029; 0x202F; 0x205F; 0x3000].

(** The request without one of its parameters. *)
Definition without (key : string) (r : Request) : Request :=
  mkRequest (delete key (Query r)).

(** Sample invocations. *)
Definition fictionRequest : Request :=
  req [("limit", " 2 "); ("genre", "Fiction"); ("sort", "price_asc")].

Definition shelf : Env := envRows sampleBooks None 3.

Definition emptyShelf : Env := envRows [] None 3.

Definition brokenShelf : Env :=
  envRows [ScanOk (mkBook 2 "B" 10 "Fiction");
           ScanErr (SqlError "sql: Scan error on column index 1")] None 3.

(** A no-break space (U+00A0, two bytes) followed by a tab. *)
Definition blank : string :=
  String (ascii_of_nat 194) (String (ascii_of_nat 160) (String (ascii_of_nat 9) "")).

(** The four parameters [getBooks] reads. *)
Definition parameterKeys : list string := ["limit"; "offset"; "genre"; "sort"].

(** The request with the values of one parameter replaced. *)
Definition withValues (key : string) (vs : list string) (r : Request) : Request :=
  mkRequest (<[key := vs]> (Query r)).

(** The invocation passes the three validations, the database answers the
    statement with a cursor, every row decodes, to [books] in this order,
    and the cursor reports no terminal error. *)
Definition answered (env : Env) (r : Request) (books : list Book) : Prop :=
  exists limit offset orderBy query args rows,
    resolveLimit (Query r) = inr limit
    /\ resolveOffset (Query r) = inr offset
    /\ resolveOrderBy (Query r) = inr orderBy
    /\ buildQuery (TrimSpace (Get (Query r) "genre")) orderBy limit offset
       = (query, args)
    /\ QueryContext env query args = inr rows
    /\ List.map ScanOk books = Rows_next rows
    /\ Rows_Err rows = None.

(** A database that refuses every statement. *)
Definition downShelf : Env :=
  mkEnv (fun _ _ => inl (SqlError "pq: connection refused")) 5.

(** ** main *)

(** What the process finds at startup: the environment variables
    ([os.Getenv] gives the empty string for an unset one), the error of
    [sql.Open], the error of [db.Ping], and the error with which
    [http.ListenAndServe] returns, [None] while it keeps serving. *)
Record Host : Type := mkHost {
  Getenv : string -> string;
  sql_Open : string -> string -> option error;
  db_Ping : option error;
  ListenAndServe : string -> option error
}.

Inductive startupEvent : Type :=
| EvSqlOpen (driver dsn : string)
| EvPing
| EvHandleFunc (pattern : string)
| EvLog (line : string)
| EvListenAndServe (addr : string)
| EvDbClose.

(** How [main] ends: the process exits, [main] is still inside
    [ListenAndServe], or [main] returns. *)
Inductive ending : Type :=
| Exit (code : Z)
| Serving
| Returned.

(** [log.Fatal] and [log.Fatalf]: the line is logged and [os.Exit(1)] ends
    the process at once; the calls deferred so far are not run. *)
Definition logFatal (line : string) (deferred : list startupEvent)
  : list startupEvent * ending :=
  ([EvLog line], Exit 1).

Definition after (before : list startupEvent)
           (rest : list startupEvent * ending) : list startupEvent * ending :=
  ((before ++ fst rest)%list, snd rest).

Definition main (h : Host) : list startupEvent * ending :=
  let dsn := Getenv h "DATABASE_URL" in
  if (dsn =? "")%string then
    logFatal "set DATABASE_URL env var (postgres DSN)" []
  else
    after [EvSqlOpen "postgres" dsn]
      match sql_Open h "postgres" dsn with
      | Some err => logFatal ("open db: " ++ Error err) []
      | None =>
        let deferred := [EvDbClose] in
        after [EvPing]
          match db_Ping h with
          | Some err => logFatal ("ping db: " ++ Error err) deferred
          | None =>
            let addr := ":8080" in
            after [EvHandleFunc "/books"; EvLog ("listening on " ++ addr);
                   EvListenAndServe addr]
              match ListenAndServe h addr with
              | Some err => logFatal (Error err) deferred
              | None => ([], Serving)
              end
          end
      end.

(** A host with its database configured and reachable, whose server stops
    on an error. *)
Definition goodHost : Host :=
  mkHost (fun name => if (name =? "DATABASE_URL")%string
                      then "postgres://localhost/books" else "")
         (fun _ _ => None) None
         (fun _ => Some (SqlError "accept tcp: use of closed network connection")).

(** The ASCII white space: tab, line feed, vertical tab, form feed,
    carriage return and space. *)
Definition asciiSpace (c : ascii) : bool :=
  let n := GoString.byteVal c in ((9 <=? n) && (n <=? 13)) || (n =? 32).

(** A string of ASCII white space only (possibly empty). *)
Definition asciiBlank (s : string) : Prop :=
  forallb asciiSpace (list_ascii_of_string s) = true.

(** * Properties *)

(** ** How an invocation unfolds *)

Section Unfolding.

Variable env : Env.
Variable r : Request.

Lemma getBooks_limit_rejected e :
  resolveLimit (Query r) = inl e ->
  Exec.run (getBooks env r) = ((Nil, 0, Some e), []).
Proof.
  intros H. unfold getBooks, Exec.run, Exec.bind. rewrite H. reflexivity.
Qed.

Lemma getBooks_offset_rejected limit e :
  resolveLimit (Query r) = inr limit ->
  resolveOffset (Query r) = inl e ->
  Exec.run (getBooks env r) = ((Nil, 0, Some e), []).
Proof.
  intros Hl Ho. unfold getBooks, Exec.run, Exec.bind.
  rewrite Hl; cbn. rewrite Ho. reflexivity.
Qed.

Lemma getBooks_sort_rejected limit offset e :
  resolveLimit (Query r) = inr limit ->
  resolveOffset (Query r) = inr offset ->
  resolveOrderBy (Query r) = inl e ->
  Exec.run (getBooks env r) = ((Nil, 0, Some e), []).
Proof.
  intros Hl Ho Hs. unfold getBooks, Exec.run, Exec.bind.
  rewrite Hl; cbn. rewrite Ho; cbn. rewrite Hs. reflexivity.
Qed.

Lemma getBooks_accepted limit offset orderBy query args :
  resolveLimit (Query r) = inr limit ->
  resolveOffset (Query r) = inr offset ->
  resolveOrderBy (Query r) = inr orderBy ->
  buildQuery (TrimSpace (Get (Query r) "genre")) orderBy limit offset
    = (query, args) ->
  Exec.run (getBooks env r) =
    (fst (afterQuery (QueryContext env query args) (sinceMs env)),
     EvQueryContext query args
       :: EvLogPrintf (logLine query args (sinceMs env))
       :: snd (afterQuery (QueryContext env query args) (sinceMs env))).
Proof.
  intros Hl Ho Hs Hb. unfold getBooks, Exec.run, Exec.bind.
  rewrite Hl; cbn. rewrite Ho; cbn. rewrite Hs; cbn. rewrite Hb; cbn.
  destruct (QueryContext env query args) as [err | rows]; cbn; [reflexivity |].
  unfold Exec.defer.
  destruct (scanRows (Rows_next rows) Nil) as [err | books]; cbn;
    [reflexivity |].
  destruct (Rows_Err rows); reflexivity.
Qed.

End Unfolding.

(** ** The validated sort value and the statement text *)

Lemma resolveOrderBy_accepts q orderBy :
  resolveOrderBy q = inr orderBy ->
  let sortParam := TrimSpace (Get q "sort") in
  (sortParam = "" /\ orderBy = "")
  \/ (sortParam = "price_asc" /\ orderBy = "price ASC")
  \/ (sortParam = "price_desc" /\ orderBy = "price DESC").
Proof.
  unfold resolveOrderBy. cbn zeta.
  destruct (String.eqb_spec (TrimSpace (Get q "sort")) "") as [-> | _].
  { intros [= <-]. now left. }
  destruct (String.eqb_spec (TrimSpace (Get q "sort")) "price_asc") as [-> | _].
  { intros [= <-]. right. now left. }
  destruct (String.eqb_spec (TrimSpace (Get q "sort")) "price_desc") as [-> | _].
  { intros [= <-]. right. now right. }
  discriminate.
Qed.

Lemma resolveOrderBy_rejects q e :
  resolveOrderBy q = inl e ->
  let sortParam := TrimSpace (Get q "sort") in
  sortParam <> "" /\ sortParam <> "price_asc" /\ sortParam <> "price_desc"
  /\ e = Errorf "invalid sort value".
Proof.
  unfold resolveOrderBy. cbn zeta.
  destruct (String.eqb_spec (TrimSpace (Get q "sort")) "") as [-> | H1];
    [discriminate |].
  destruct (String.eqb_spec (TrimSpace (Get q "sort")) "price_asc") as [-> | H2];
    [discriminate |].
  destruct (String.eqb_spec (TrimSpace (Get q "sort")) "price_desc") as [-> | H3];
    [discriminate |].
  intros [= <-]. auto.
Qed.

(** The statement built for an accepted order and its arguments, spelled
    out. *)
Lemma buildQuery_text genre sortParam orderBy limit offset :
  (sortParam = "" /\ orderBy = "")
  \/ (sortParam = "price_asc" /\ orderBy = "price ASC")
  \/ (sortParam = "price_desc" /\ orderBy = "price DESC") ->
  buildQuery genre orderBy limit offset =
    (if (genre =? "")%string then
       "SELECT id, title, price, genre FROM books"
         ++ orderClause sortParam ++ " LIMIT $1 OFFSET $2"
     else
       "SELECT id, title, price, genre FROM books WHERE genre = $1"
         ++ orderClause sortParam ++ " LIMIT $2 OFFSET $3",
     boundArgs genre limit offset).
Proof.
  unfold buildQuery, boundArgs.
  intros [[-> ->] | [[-> ->] | [-> ->]]];
    destruct (genre =? "")%string; reflexivity.
Qed.

Lemma queryCalls_accepted query args line answer elapsed :
  queryCalls (EvQueryContext query args :: EvLogPrintf line
                :: snd (afterQuery answer elapsed)) = [(query, args)].
Proof.
  destruct answer as [err | rows]; reflexivity.
Qed.

Lemma logRecords_accepted query args line answer elapsed :
  logRecords (EvQueryContext query args :: EvLogPrintf line
                :: snd (afterQuery answer elapsed)) = [line].
Proof.
  destruct answer as [err | rows]; reflexivity.
Qed.

(** Every invocation either stops at the first rejected parameter, having
    done nothing, or passes the three validations and calls the database
    once. *)
Lemma getBooks_cases env r :
  (exists e,
      (resolveLimit (Query r) = inl e
       \/ (exists limit, resolveLimit (Query r) = inr limit
                         /\ resolveOffset (Query r) = inl e)
       \/ (exists limit offset,
              resolveLimit (Query r) = inr limit
              /\ resolveOffset (Query r) = inr offset
              /\ resolveOrderBy (Query r) = inl e))
      /\ Exec.run (getBooks env r) = ((Nil, 0, Some e), []))
  \/ (exists limit offset orderBy query args,
         resolveLimit (Query r) = inr limit
         /\ resolveOffset (Query r) = inr offset
         /\ resolveOrderBy (Query r) = inr orderBy
         /\ buildQuery (TrimSpace (Get (Query r) "genre")) orderBy limit offset
            = (query, args)
         /\ Exec.run (getBooks env r) =
            (fst (afterQuery (QueryContext env query args) (sinceMs env)),
             EvQueryContext query args
               :: EvLogPrintf (logLine query args (sinceMs env))
               :: snd (afterQuery (QueryContext env query args) (sinceMs env)))).
Proof.
  destruct (resolveLimit (Query r)) as [e | limit] eqn:Hl.
  { left. exists e. split; [now left | now apply getBooks_limit_rejected]. }
  destruct (resolveOffset (Query r)) as [e | offset] eqn:Ho.
  { left. exists e. split; [right; left; eauto |].
    now apply getBooks_offset_rejected with limit. }
  destruct (resolveOrderBy (Query r)) as [e | orderBy] eqn:Hs.
  { left. exists e. split; [right; right; eauto |].
    now apply getBooks_sort_rejected with limit offset. }
  right.
  destruct (buildQuery (TrimSpace (Get (Query r) "genre")) orderBy limit offset)
    as [query args] eqn:Hb.
  exists limit, offset, orderBy, query, args.
  repeat (split; [reflexivity || assumption |]).
  now apply getBooks_accepted with limit offset orderBy.
Qed.

Lemma sortChoiceOf_accepts sortParam orderBy :
  (sortParam = "" /\ orderBy = "")
  \/ (sortParam = "price_asc" /\ orderBy = "price ASC")
  \/ (sortParam = "price_desc" /\ orderBy = "price DESC") ->
  exists c, sortChoiceOf sortParam = Some c
            /\ forall hasGenre,
                sqlTemplate hasGenre c =
                (if hasGenre then
                   "SELECT id, title, price, genre FROM books WHERE genre = $1"
                     ++ orderClause sortParam ++ " LIMIT $2 OFFSET $3"
                 else
                   "SELECT id, title, price, genre FROM books"
                     ++ orderClause sortParam ++ " LIMIT $1 OFFSET $2").
Proof.
  intros [[-> _] | [[-> _] | [-> _]]];
    [exists SortNone | exists SortPriceAsc | exists SortPriceDesc];
    (split; [reflexivity | intros []; reflexivity]).
Qed.

Lemma sqlTemplate_listed hasGenre c : In (sqlTemplate hasGenre c) sqlTemplates.
Proof.
  destruct hasGenre, c; unfold sqlTemplates; simpl; tauto.
Qed.

(** ** The statement text and its bound arguments *)

(** A statement reaches the database only after the three validations, and
    it is then the text of the sort choice and of the genre's presence. *)
Lemma issued_query_inv env r query args :
  In (query, args) (queryCalls (snd (Exec.run (getBooks env r)))) ->
  let genre := TrimSpace (Get (Query r) "genre") in
  exists c limit offset,
    sortChoiceOf (TrimSpace (Get (Query r) "sort")) = Some c
    /\ resolveLimit (Query r) = inr limit
    /\ resolveOffset (Query r) = inr offset
    /\ query = sqlTemplate (negb (genre =? "")%string) c
    /\ args = boundArgs genre limit offset.
Proof.
  intros Hin genre.
  destruct (getBooks_cases env r)
    as [(e & _ & Hrun) | (limit & offset & orderBy & q & a & Hl & Ho & Hs & Hb & Hrun)];
    rewrite Hrun in Hin; cbn [snd] in Hin.
  { destruct Hin. }
  rewrite queryCalls_accepted in Hin.
  destruct Hin as [[= <- <-] | []].
  pose proof (resolveOrderBy_accepts _ _ Hs) as Hacc. cbn zeta in Hacc.
  rewrite (buildQuery_text _ _ _ _ _ Hacc) in Hb.
  destruct (sortChoiceOf_accepts _ _ Hacc) as (c & Hc & Htext).
  exists c, limit, offset.
  injection Hb as Hq Ha.
  assert (q = sqlTemplate (negb (genre =? "")%string) c) as Hq'.
  { rewrite Htext, <- Hq. fold genre. now destruct (genre =? "")%string. }
  repeat split; auto.
Qed.

(** C1.  Whatever statement text an invocation passes to the database is
    one of six fixed texts, chosen by the presence of a non-empty trimmed
    genre and by the validated sort choice alone; the genre, the limit and
    the offset of the request appear in the bound-argument list, and only
    there. *)
Theorem sql_text_is_a_fixed_template env r query args :
  In (query, args) (queryCalls (snd (Exec.run (getBooks env r)))) ->
  let genre := TrimSpace (Get (Query r) "genre") in
  exists c limit offset,
    sortChoiceOf (TrimSpace (Get (Query r) "sort")) = Some c
    /\ resolveLimit (Query r) = inr limit
    /\ resolveOffset (Query r) = inr offset
    /\ query = sqlTemplate (negb (genre =? "")%string) c
    /\ In query sqlTemplates
    /\ args = boundArgs genre limit offset.
Proof.
  intros Hin genre.
  destruct (issued_query_inv env r query args Hin)
    as (c & limit & offset & Hc & Hl & Ho & Hq & Ha).
  exists c, limit, offset. repeat split; auto.
  rewrite Hq. apply sqlTemplate_listed.
Qed.

(** C4.  For every valid parameter set the statement issued is the base
    text, then the genre condition with placeholder 1 exactly when a genre
    filter is present, then the ordering clause of the sort value, then the
    LIMIT and OFFSET placeholders; the placeholders number the bound
    arguments in their order: genre (if present), limit, offset. *)
Theorem sql_statement_shape env r limit offset orderBy :
  resolveLimit (Query r) = inr limit ->
  resolveOffset (Query r) = inr offset ->
  resolveOrderBy (Query r) = inr orderBy ->
  let genre := TrimSpace (Get (Query r) "genre") in
  let sortParam := TrimSpace (Get (Query r) "sort") in
  exists query args,
    queryCalls (snd (Exec.run (getBooks env r))) = [(query, args)]
    /\ (genre = "" ->
        query = "SELECT id, title, price, genre FROM books"
                  ++ orderClause sortParam ++ " LIMIT $1 OFFSET $2"
        /\ args = [VInt limit; VInt offset])
    /\ (genre <> "" ->
        query = "SELECT id, title, price, genre FROM books WHERE genre = $1"
                  ++ orderClause sortParam ++ " LIMIT $2 OFFSET $3"
        /\ args = [VString genre; VInt limit; VInt offset]).
Proof.
  intros Hl Ho Hs genre sortParam.
  pose proof (resolveOrderBy_accepts _ _ Hs) as Hacc. cbn zeta in Hacc.
  pose proof (buildQuery_text genre _ _ limit offset Hacc) as Hb.
  fold sortParam in Hb.
  eexists _, _. split.
  { rewrite (getBooks_accepted env r _ _ _ _ _ Hl Ho Hs Hb). cbn [snd].
    apply queryCalls_accepted. }
  unfold boundArgs.
  split; intros Hg.
  - rewrite Hg. split; reflexivity.
  - apply String.eqb_neq in Hg. rewrite Hg. split; reflexivity.
Qed.

(** ** Validation of limit and offset *)

Lemma TrimSpace_empty : TrimSpace "" = "".
Proof. reflexivity. Qed.

Lemma Get_absent (q : Values) key : q !! key = None -> Get q key = "".
Proof. intros H. unfold Get. now rewrite H. Qed.

Lemma Atoi_nonempty s v : Atoi s = Some v -> s <> "".
Proof. intros H ->. discriminate. Qed.

Lemma resolveLimit_default q :
  TrimSpace (Get q "limit") = "" -> resolveLimit q = inr 10.
Proof. intros H. unfold resolveLimit. rewrite H. reflexivity. Qed.

Lemma resolveLimit_parsed q v :
  Atoi (TrimSpace (Get q "limit")) = Some v -> 0 < v ->
  resolveLimit q = inr (Z.min v 100).
Proof.
  intros Ha Hv. unfold resolveLimit. cbn zeta.
  pose proof (Atoi_nonempty _ _ Ha) as Hne. apply String.eqb_neq in Hne.
  rewrite Hne, Ha. cbn [negb].
  destruct (Z.gtb_spec v 0) as [_ | ?]; [| lia].
  unfold maxLimit.
  destruct (Z.gtb_spec v 100); f_equal; lia.
Qed.

Lemma resolveLimit_malformed q :
  limitMalformed q -> resolveLimit q = inl (InvalidParameter "limit").
Proof.
  intros [Hne Hbad]. unfold resolveLimit. cbn zeta.
  apply String.eqb_neq in Hne. rewrite Hne. cbn [negb].
  destruct (Atoi (TrimSpace (Get q "limit"))) as [v |]; [| reflexivity].
  specialize (Hbad v eq_refl).
  destruct (Z.gtb_spec v 0); [lia | reflexivity].
Qed.

Lemma resolveLimit_rejects q e :
  resolveLimit q = inl e -> limitMalformed q /\ e = InvalidParameter "limit".
Proof.
  unfold resolveLimit, limitMalformed. cbn zeta.
  destruct (String.eqb_spec (TrimSpace (Get q "limit")) "") as [_ | Hne];
    cbn [negb]; [discriminate |].
  destruct (Atoi (TrimSpace (Get q "limit"))) as [v |].
  - destruct (Z.gtb_spec v 0); [discriminate |].
    intros [= <-]. repeat split; auto. intros ? [= <-]. lia.
  - intros [= <-]. repeat split; auto. discriminate.
Qed.

Lemma resolveOffset_default q :
  TrimSpace (Get q "offset") = "" -> resolveOffset q = inr 0.
Proof. intros H. unfold resolveOffset. rewrite H. reflexivity. Qed.

Lemma resolveOffset_parsed q v :
  Atoi (TrimSpace (Get q "offset")) = Some v -> 0 <= v ->
  resolveOffset q = inr v.
Proof.
  intros Ha Hv. unfold resolveOffset. cbn zeta.
  pose proof (Atoi_nonempty _ _ Ha) as Hne. apply String.eqb_neq in Hne.
  rewrite Hne, Ha. cbn [negb].
  destruct (Z.geb_spec v 0); [reflexivity | lia].
Qed.

Lemma resolveOffset_malformed q :
  offsetMalformed q -> resolveOffset q = inl (InvalidParameter "offset").
Proof.
  intros [Hne Hbad]. unfold resolveOffset. cbn zeta.
  apply String.eqb_neq in Hne. rewrite Hne. cbn [negb].
  destruct (Atoi (TrimSpace (Get q "offset"))) as [v |]; [| reflexivity].
  specialize (Hbad v eq_refl).
  destruct (Z.geb_spec v 0); [lia | reflexivity].
Qed.

Lemma resolveOffset_rejects q e :
  resolveOffset q = inl e -> offsetMalformed q /\ e = InvalidParameter "offset".
Proof.
  unfold resolveOffset, offsetMalformed. cbn zeta.
  destruct (String.eqb_spec (TrimSpace (Get q "offset")) "") as [_ | Hne];
    cbn [negb]; [discriminate |].
  destruct (Atoi (TrimSpace (Get q "offset"))) as [v |].
  - destruct (Z.geb_spec v 0); [discriminate |].
    intros [= <-]. repeat split; auto. intros ? [= <-]. lia.
  - intros [= <-]. repeat split; auto. discriminate.
Qed.

Lemma resolveOrderBy_malformed q :
  sortMalformed q -> resolveOrderBy q = inl (InvalidParameter "sort").
Proof.
  unfold sortMalformed, sortValues, resolveOrderBy. cbn zeta. intros Hbad.
  destruct (String.eqb_spec (TrimSpace (Get q "sort")) "") as [E | _];
    [exfalso; apply Hbad; rewrite E; simpl; tauto |].
  destruct (String.eqb_spec (TrimSpace (Get q "sort")) "price_asc") as [E | _];
    [exfalso; apply Hbad; rewrite E; simpl; tauto |].
  destruct (String.eqb_spec (TrimSpace (Get q "sort")) "price_desc") as [E | _];
    [exfalso; apply Hbad; rewrite E; simpl; tauto |].
  reflexivity.
Qed.

(** C2.  The limit is 10 when the parameter is absent or empty after
    trimming, the parsed value when that is between 1 and 100, exactly 100
    when it is larger, and a parameter that does not parse as a positive
    integer makes [getBooks] fail with the limit error. *)
Theorem limit_resolution env r :
  let s := TrimSpace (Get (Query r) "limit") in
  ((Query r !! "limit" = None \/ s = "") -> resolveLimit (Query r) = inr 10)
  /\ (forall v, Atoi s = Some v -> 0 < v <= 100 -> resolveLimit (Query r) = inr v)
  /\ (forall v, Atoi s = Some v -> 100 < v -> resolveLimit (Query r) = inr 100)
  /\ (limitMalformed (Query r) ->
      Exec.run (getBooks env r) = ((Nil, 0, Some (InvalidParameter "limit")), [])).
Proof.
  cbn zeta. repeat apply conj.
  - intros [Habs | Hemp]; apply resolveLimit_default; [| exact Hemp].
    rewrite (Get_absent _ _ Habs). apply TrimSpace_empty.
  - intros v Ha Hv. rewrite (resolveLimit_parsed _ _ Ha) by lia.
    f_equal. lia.
  - intros v Ha Hv. rewrite (resolveLimit_parsed _ _ Ha) by lia.
    f_equal. lia.
  - intros Hbad. apply getBooks_limit_rejected.
    now apply resolveLimit_malformed.
Qed.

(** C5.  A request whose limit, offset or sort is rejected makes [getBooks]
    return an invalid-parameter error with elapsed time 0, and nothing has
    happened before it returns: no database call (and no other event). *)
Theorem invalid_parameter_before_database env r :
  limitMalformed (Query r) \/ offsetMalformed (Query r) \/ sortMalformed (Query r) ->
  exists name,
    In name ["limit"; "offset"; "sort"]
    /\ Exec.run (getBooks env r) = ((Nil, 0, Some (InvalidParameter name)), [])
    /\ queryCalls (snd (Exec.run (getBooks env r))) = [].
Proof.
  intros Hbad.
  assert (exists name,
             In name ["limit"; "offset"; "sort"]
             /\ Exec.run (getBooks env r)
                = ((Nil, 0, Some (InvalidParameter name)), [])) as (name & Hin & Hrun).
  { destruct (resolveLimit (Query r)) as [e | limit] eqn:Hl.
    { apply resolveLimit_rejects in Hl as Hl'. destruct Hl' as [_ ->].
      exists "limit". split; [simpl; tauto |].
      now apply getBooks_limit_rejected. }
    destruct (resolveOffset (Query r)) as [e | offset] eqn:Ho.
    { exists "offset". split; [simpl; tauto |].
      apply resolveOffset_rejects in Ho as Ho'. destruct Ho' as [_ ->].
      now apply getBooks_offset_rejected with limit. }
    exists "sort". split; [simpl; tauto |].
    apply getBooks_sort_rejected with limit offset; try assumption.
    destruct Hbad as [Hb | [Hb | Hb]].
    - rewrite (resolveLimit_malformed _ Hb) in Hl. discriminate.
    - rewrite (resolveOffset_malformed _ Hb) in Ho. discriminate.
    - now apply resolveOrderBy_malformed. }
  exists name. rewrite Hrun. auto.
Qed.

(** C9 as written fails: with limit 0 and offset -1 the offset does not
    parse as a non-negative integer, yet [getBooks] fails with the limit
    error, the limit being validated first. *)
Lemma offset_error_masked_by_limit : ~ offset_rule_for_every_request.
Proof.
  intros H.
  destruct (H (envRows [] None 0) (req [("limit", "0"); ("offset", "-1")]))
    as (_ & _ & Herr).
  assert (offsetMalformed (Query (req [("limit", "0"); ("offset", "-1")]))) as Hbad.
  { split; [vm_compute; discriminate |].
    intros v Hv. vm_compute in Hv. injection Hv as <-. lia. }
  specialize (Herr Hbad). vm_compute in Herr. discriminate.
Qed.

(** C9, amended.  The offset is 0 when the parameter is absent or empty
    after trimming and the parsed value when that is non-negative; a
    parameter that does not parse as a non-negative integer makes
    [getBooks] fail with the offset error whenever the limit parameter has
    passed its own validation. *)
Theorem offset_resolution env r :
  let s := TrimSpace (Get (Query r) "offset") in
  ((Query r !! "offset" = None \/ s = "") -> resolveOffset (Query r) = inr 0)
  /\ (forall v, Atoi s = Some v -> 0 <= v -> resolveOffset (Query r) = inr v)
  /\ (forall limit,
         resolveLimit (Query r) = inr limit ->
         offsetMalformed (Query r) ->
         Exec.run (getBooks env r) = ((Nil, 0, Some (InvalidParameter "offset")), [])).
Proof.
  cbn zeta. repeat apply conj.
  - intros [Habs | Hemp]; apply resolveOffset_default; [| exact Hemp].
    rewrite (Get_absent _ _ Habs). apply TrimSpace_empty.
  - intros v Ha Hv. now apply resolveOffset_parsed.
  - intros limit Hl Hbad. apply getBooks_offset_rejected with limit; [exact Hl |].
    now apply resolveOffset_malformed.
Qed.

(** C6 as written fails: with limit 0 and sort "bogus" the sort value is
    none of the three accepted ones, yet [getBooks] fails with the limit
    error. *)
Lemma sort_error_masked_by_limit : ~ sort_rule_for_every_request.
Proof.
  intros H.
  destruct (H (envRows [] None 0) (req [("limit", "0"); ("sort", "bogus")]))
    as (_ & Herr & _).
  assert (sortMalformed (Query (req [("limit", "0"); ("sort", "bogus")]))) as Hbad.
  { unfold sortMalformed. vm_compute. intuition discriminate. }
  specialize (Herr Hbad). vm_compute in Herr. discriminate.
Qed.

Lemma sortValues_accepted q :
  (exists orderBy, resolveOrderBy q = inr orderBy)
  <-> In (TrimSpace (Get q "sort")) sortValues.
Proof.
  split.
  - intros [orderBy H]. apply resolveOrderBy_accepts in H. cbn zeta in H.
    unfold sortValues. simpl.
    destruct H as [[-> _] | [[-> _] | [-> _]]]; tauto.
  - intros Hin. destruct (resolveOrderBy q) as [e | orderBy] eqn:Hs; [| eauto].
    apply resolveOrderBy_rejects in Hs. cbn zeta in Hs.
    destruct Hs as (H1 & H2 & H3 & _).
    unfold sortValues in Hin. simpl in Hin.
    destruct Hin as [E | [E | [E | []]]]; congruence.
Qed.

(** C6, amended.  The trimmed sort value passes its validation exactly
    when it is "", "price_asc" or "price_desc"; any other value makes
    [getBooks] fail with the sort error whenever limit and offset have
    passed their own validation; and with the empty value the statement
    issued has no ORDER BY clause. *)
Theorem sort_validation env r :
  let sortParam := TrimSpace (Get (Query r) "sort") in
  ((exists orderBy, resolveOrderBy (Query r) = inr orderBy)
   <-> In sortParam sortValues)
  /\ (forall limit offset,
         resolveLimit (Query r) = inr limit ->
         resolveOffset (Query r) = inr offset ->
         sortMalformed (Query r) ->
         Exec.run (getBooks env r) = ((Nil, 0, Some (InvalidParameter "sort")), []))
  /\ (sortParam = "" ->
      forall query args,
        In (query, args) (queryCalls (snd (Exec.run (getBooks env r)))) ->
        query = sqlTemplate false SortNone \/ query = sqlTemplate true SortNone).
Proof.
  cbn zeta. repeat apply conj.
  - apply sortValues_accepted.
  - apply sortValues_accepted.
  - intros limit offset Hl Ho Hbad.
    apply getBooks_sort_rejected with limit offset; try assumption.
    now apply resolveOrderBy_malformed.
  - intros Hs query args Hin.
    destruct (issued_query_inv env r query args Hin)
      as (c & _ & _ & Hc & _ & _ & Hq & _).
    rewrite Hs in Hc. injection Hc as <-. rewrite Hq.
    destruct (negb _); tauto.
Qed.

(** ** The log record *)

(** C8 as written fails: with limit 0 the invocation returns before the
    statement is built and emits no log record. *)
Lemma no_log_record_for_rejected_limit : ~ one_log_record_for_every_invocation.
Proof.
  intros H.
  destruct (H (envRows [] None 0) (req [("limit", "0")]))
    as (query & args & elapsed & Hlog).
  vm_compute in Hlog. discriminate.
Qed.

(** C8, amended.  Every invocation that passes parameter validation emits
    exactly one log record, made of the statement text issued, its bound
    arguments in order and the elapsed milliseconds it returns, whether the
    database call and the decoding of the rows then succeed or fail; an
    invocation that fails parameter validation emits no log record. *)
Theorem log_record_after_validation env r :
  (forall limit offset orderBy,
      resolveLimit (Query r) = inr limit ->
      resolveOffset (Query r) = inr offset ->
      resolveOrderBy (Query r) = inr orderBy ->
      exists query args,
        queryCalls (snd (Exec.run (getBooks env r))) = [(query, args)]
        /\ snd (fst (fst (Exec.run (getBooks env r)))) = sinceMs env
        /\ logRecords (snd (Exec.run (getBooks env r)))
           = [logLine query args (sinceMs env)])
  /\ (limitMalformed (Query r) \/ offsetMalformed (Query r)
      \/ sortMalformed (Query r) ->
      logRecords (snd (Exec.run (getBooks env r))) = []).
Proof.
  split.
  - intros limit offset orderBy Hl Ho Hs.
    destruct (buildQuery (TrimSpace (Get (Query r) "genre")) orderBy limit offset)
      as [query args] eqn:Hb.
    exists query, args.
    rewrite (getBooks_accepted env r _ _ _ _ _ Hl Ho Hs Hb). cbn [fst snd].
    rewrite queryCalls_accepted, logRecords_accepted.
    repeat split.
    destruct (QueryContext env query args) as [err | rows]; [reflexivity |].
    cbn. destruct (scanRows (Rows_next rows) Nil); [reflexivity |].
    destruct (Rows_Err rows); reflexivity.
  - intros Hbad.
    destruct (getBooks_cases env r)
      as [(e & _ & Hrun)
         | (limit & offset & orderBy & q & a & Hl & Ho & Hs & _)].
    + rewrite Hrun. reflexivity.
    + destruct Hbad as [Hb | [Hb | Hb]].
      * rewrite (resolveLimit_malformed _ Hb) in Hl. discriminate.
      * rewrite (resolveOffset_malformed _ Hb) in Ho. discriminate.
      * rewrite (resolveOrderBy_malformed _ Hb) in Hs. discriminate.
Qed.

(** ** Reading the cursor *)

Lemma scanRows_failure rows :
  forall books,
    Exists (fun s => exists e, s = ScanErr e) rows ->
    exists e, In (ScanErr e) rows /\ scanRows rows books = inl e.
Proof.
  induction rows as [| [b | e] rest IH]; intros books Hex.
  - inversion Hex.
  - inversion Hex as [? ? [e He] | ? ? Hrest]; subst; [discriminate |].
    destruct (IH (append books b) Hrest) as (e & Hin & Hscan).
    exists e. split; [now right | exact Hscan].
  - exists e. split; [now left | reflexivity].
Qed.

Lemma scanRows_success rows :
  forall books,
    Forall (fun s => exists b, s = ScanOk b) rows ->
    exists decoded,
      List.map ScanOk decoded = rows
      /\ scanRows rows books =
         inr (match rows with
              | [] => books
              | _ :: _ => Slice (elems books ++ decoded)%list
              end).
Proof.
  induction rows as [| s rest IH]; intros books Hall.
  - exists []. split; reflexivity.
  - inversion Hall as [| ? ? [b ->] Hrest]; subst.
    destruct (IH (append books b) Hrest) as (decoded & Hmap & Hscan).
    exists (b :: decoded). split; [cbn; now rewrite Hmap |].
    cbn [scanRows]. rewrite Hscan.
    destruct rest; cbn.
    + destruct decoded; [reflexivity | discriminate].
    + now rewrite <- app_assoc.
Qed.

Lemma run_after_issue env r query args :
  In (query, args) (queryCalls (snd (Exec.run (getBooks env r)))) ->
  Exec.run (getBooks env r) =
    (fst (afterQuery (QueryContext env query args) (sinceMs env)),
     EvQueryContext query args
       :: EvLogPrintf (logLine query args (sinceMs env))
       :: snd (afterQuery (QueryContext env query args) (sinceMs env))).
Proof.
  intros Hin.
  destruct (getBooks_cases env r)
    as [(e & _ & Hrun)
       | (limit & offset & orderBy & q & a & Hl & Ho & Hs & Hb & Hrun)].
  - rewrite Hrun in Hin. destruct Hin.
  - rewrite Hrun in Hin. cbn [snd] in Hin. rewrite queryCalls_accepted in Hin.
    destruct Hin as [[= <- <-] | []]. exact Hrun.
Qed.

(** C7.  When the statement was issued and answered with a cursor, and
    some row of the cursor fails to decode or the cursor reports a terminal
    error once the rows are exhausted, [getBooks] returns that error and
    the nil slice: no book at all, whatever rows decoded before. *)
Theorem decode_failure_returns_no_books env r query args rows :
  In (query, args) (queryCalls (snd (Exec.run (getBooks env r)))) ->
  QueryContext env query args = inr rows ->
  Exists (fun s => exists e, s = ScanErr e) (Rows_next rows)
  \/ Rows_Err rows <> None ->
  exists e,
    (In (ScanErr e) (Rows_next rows) \/ Rows_Err rows = Some e)
    /\ fst (Exec.run (getBooks env r)) = (Nil, sinceMs env, Some e).
Proof.
  intros Hin Hq Hfail.
  rewrite (run_after_issue env r query args Hin). cbn [fst].
  rewrite Hq. cbn [afterQuery fst].
  destruct (scanRows (Rows_next rows) Nil) as [e | books] eqn:Hscan.
  - exists e. split; [| reflexivity]. left.
    clear - Hscan. revert Hscan. generalize (@Nil Book).
    induction (Rows_next rows) as [| [b | e'] rest IH]; intros acc Hscan.
    + discriminate.
    + right. eapply IH. exact Hscan.
    + left. cbn in Hscan. congruence.
  - destruct Hfail as [Hex | Herr].
    + destruct (scanRows_failure _ Nil Hex) as (e & _ & He). congruence.
    + destruct (Rows_Err rows) as [e |]; [| congruence].
      exists e. split; [now right | reflexivity].
Qed.

(** C3 on the code.  When the statement was issued and answered with a
    cursor of zero rows and no terminal error, [getBooks] returns no error
    and the nil slice it declared, never having appended to it, and the
    handler answers 200 with the JSON text null, not an empty array. *)
Theorem zero_rows_give_nil_and_json_null env r query args rows :
  In (query, args) (queryCalls (snd (Exec.run (getBooks env r)))) ->
  QueryContext env query args = inr rows ->
  Rows_next rows = [] ->
  Rows_Err rows = None ->
  fst (Exec.run (getBooks env r)) = (Nil, sinceMs env, None)
  /\ fst (makeGetBooksHandler env r) =
     http.mkResponse 200 "application/json" (Itoa (sinceMs env) ++ "ms")
                     (http.JSON json.Null).
Proof.
  intros Hin Hq Hrows Herr.
  assert (fst (Exec.run (getBooks env r)) = (Nil, sinceMs env, None)) as Hres.
  { rewrite (run_after_issue env r query args Hin). cbn [fst].
    rewrite Hq. cbn [afterQuery fst]. rewrite Hrows, Herr. reflexivity. }
  split; [exact Hres |].
  unfold makeGetBooksHandler.
  destruct (Exec.run (getBooks env r)) as [[[books ms] err] tr].
  cbn [fst] in Hres. injection Hres as -> -> ->. reflexivity.
Qed.

(** ** White space *)

(** Decoding a rune consumes at least one byte, so trimming with the
    string's length as fuel stops only where no white space is left. *)
Lemma DecodeRune_width s :
  s <> [] -> (1 <= snd (utf8.DecodeRune s) <= length s)%nat.
Proof.
  destruct s as [| s0 t]; [congruence | intros _].
  unfold utf8.DecodeRune.
  repeat match goal with
         | |- context [if ?c then _ else _] => destruct c
         | |- context [match ?x with _ => _ end] => destruct x
         end; cbn [snd length]; lia.
Qed.

Lemma lastStart_bounds rs : rs <> [] -> (1 <= utf8.lastStart rs)%nat.
Proof.
  destruct rs as [| b1 r1]; [congruence | intros _].
  unfold utf8.lastStart.
  repeat match goal with
         | |- context [if ?c then _ else _] => destruct c
         | |- context [match ?x with _ => _ end] => destruct x
         end; lia.
Qed.

Lemma DecodeLastRune_width s :
  s <> [] -> (1 <= snd (utf8.DecodeLastRune s) <= length s)%nat.
Proof.
  intros Hs. unfold utf8.DecodeLastRune.
  assert (1 <= length s)%nat as Hlen by (destruct s; [congruence | cbn; lia]).
  destruct (rev s) as [| b1 r1] eqn:Hrev.
  { apply (f_equal (@length Z)) in Hrev. rewrite length_rev in Hrev.
    cbn in Hrev. lia. }
  destruct (b1 <? utf8.RuneSelf); [cbn; lia |].
  pose proof (lastStart_bounds (b1 :: r1) ltac:(congruence)) as Hk.
  remember (utf8.lastStart (b1 :: r1)) as k eqn:Ek. clear Ek.
  destruct (utf8.DecodeRune _) as [r size] eqn:Hdec.
  destruct (Nat.eqb_spec size k) as [-> | _];
    cbn [snd]; [| lia].
  split; [lia |].
  assert (skipn (length s - k) s <> []) as Hne.
  { intros E. rewrite E in Hdec.
    change (utf8.DecodeRune []) with (utf8.RuneError, 0%nat) in Hdec.
    injection Hdec as _ Hsz. lia. }
  pose proof (DecodeRune_width _ Hne) as Hw. rewrite Hdec in Hw. cbn [snd] in Hw.
  rewrite length_skipn in Hw. lia.
Qed.

Lemma trimLeftSpace_done fuel :
  forall s,
    (length s <= fuel)%nat ->
    trimLeftSpace fuel s = []
    \/ unicode.IsSpace (fst (utf8.DecodeRune (trimLeftSpace fuel s))) = false.
Proof.
  induction fuel as [| fuel IH]; intros s Hlen.
  - destruct s; [now left | cbn in Hlen; lia].
  - destruct s as [| b t]; [now left |].
    cbn [trimLeftSpace].
    pose proof (DecodeRune_width (b :: t) ltac:(congruence)) as Hw.
    destruct (utf8.DecodeRune (b :: t)) as [r w] eqn:Hdec. cbn [snd] in Hw.
    destruct (unicode.IsSpace r) eqn:Hr.
    + apply IH. rewrite length_skipn. cbn [length] in *. lia.
    + right. now rewrite Hdec.
Qed.

Lemma trimRightSpace_done fuel :
  forall s,
    (length s <= fuel)%nat ->
    trimRightSpace fuel s = []
    \/ unicode.IsSpace (fst (utf8.DecodeLastRune (trimRightSpace fuel s))) = false.
Proof.
  induction fuel as [| fuel IH]; intros s Hlen.
  - destruct s; [now left | cbn in Hlen; lia].
  - destruct s as [| b t]; [now left |].
    cbn [trimRightSpace].
    pose proof (DecodeLastRune_width (b :: t) ltac:(congruence)) as Hw.
    destruct (utf8.DecodeLastRune (b :: t)) as [r w] eqn:Hdec. cbn [snd] in Hw.
    destruct (unicode.IsSpace r) eqn:Hr.
    + apply IH. rewrite length_firstn. cbn [length] in *. lia.
    + right. now rewrite Hdec.
Qed.

Example TrimSpace_ascii : TrimSpace "  12 " = "12".
Proof. reflexivity. Qed.

Example TrimSpace_unicode : TrimSpace (blank ++ "a b" ++ blank) = "a b".
Proof. reflexivity. Qed.

Example TrimSpace_stray_byte :
  TrimSpace (String (ascii_of_nat 194) " x ") = String (ascii_of_nat 194) " x".
Proof. reflexivity. Qed.

Example Atoi_accepts :
  List.map Atoi ["12"; "+12"; "-0"; "007"; "9223372036854775807";
                 "-9223372036854775808"]
  = [Some 12; Some 12; Some 0; Some 7; Some 9223372036854775807;
     Some (-9223372036854775808)].
Proof. reflexivity. Qed.

Example Atoi_rejects :
  List.map Atoi [""; "-"; "1_0"; "1 2"; "0x10"; "1.5"; "9223372036854775808"]
  = [None; None; None; None; None; None; None].
Proof. reflexivity. Qed.


Lemma IsSpace_listed r : unicode.IsSpace r = true -> In r spaceRunes.
Proof.
  unfold unicode.IsSpace, unicode.MaxLatin1, spaceRunes.
  destruct (Z.leb_spec r 255) as [Hle | Hgt]; intros H;
    repeat rewrite ?orb_true_iff, ?andb_true_iff in H;
    rewrite ?Z.eqb_eq, ?Z.leb_le in H; simpl; lia.
Qed.

Lemma space_rune_decodes r rest :
  unicode.IsSpace r = true ->
  exists b e,
    utf8.EncodeRune r = b :: e
    /\ utf8.DecodeRune (b :: e ++ rest) = (r, S (length e)).
Proof.
  intros H. apply IsSpace_listed in H. unfold spaceRunes in H. simpl in H.
  repeat (destruct H as [<- | H]; [eexists _, _; split; reflexivity |]).
  destruct H.
Qed.

Lemma trimLeftSpace_spaces rs :
  Forall (fun r => unicode.IsSpace r = true) rs ->
  forall fuel,
    (length (concat (List.map utf8.EncodeRune rs)) <= fuel)%nat ->
    trimLeftSpace fuel (concat (List.map utf8.EncodeRune rs)) = [].
Proof.
  induction 1 as [| r rs Hr _ IH]; intros fuel Hfuel.
  - destruct fuel; reflexivity.
  - cbn [List.map concat] in *.
    destruct (space_rune_decodes r (concat (List.map utf8.EncodeRune rs)) Hr)
      as (b & e & Henc & Hdec).
    rewrite Henc in *. cbn [app length] in Hfuel.
    destruct fuel as [| fuel]; [lia |].
    cbn [app trimLeftSpace]. rewrite Hdec, Hr.
    cbn [skipn]. rewrite skipn_app, skipn_all, Nat.sub_diag. cbn [app skipn].
    apply IH. rewrite length_app in Hfuel. lia.
Qed.

Lemma TrimSpace_onlySpace s : onlySpace s -> TrimSpace s = "".
Proof.
  intros (rs & Hrs & Hb). unfold TrimSpace. rewrite Hb.
  rewrite (trimLeftSpace_spaces rs Hrs) by reflexivity. reflexivity.
Qed.

Lemma Get_without_same key r : Get (Query (without key r)) key = "".
Proof.
  unfold Get, without. cbn [Query]. now rewrite lookup_delete_eq.
Qed.

Lemma Get_without_other key key' r :
  key <> key' -> Get (Query (without key r)) key' = Get (Query r) key'.
Proof.
  intros Hne. unfold Get, without. cbn [Query]. now rewrite lookup_delete_ne.
Qed.

(** [getBooks] reads the request through its four trimmed parameters
    only. *)
Lemma getBooks_ext env r r' :
  (forall key, In key ["limit"; "offset"; "genre"; "sort"] ->
               TrimSpace (Get (Query r) key) = TrimSpace (Get (Query r') key)) ->
  getBooks env r = getBooks env r'.
Proof.
  intros H.
  assert (resolveLimit (Query r) = resolveLimit (Query r')) as Hl.
  { unfold resolveLimit. rewrite (H "limit") by (simpl; tauto). reflexivity. }
  assert (resolveOffset (Query r) = resolveOffset (Query r')) as Ho.
  { unfold resolveOffset. rewrite (H "offset") by (simpl; tauto). reflexivity. }
  assert (resolveOrderBy (Query r) = resolveOrderBy (Query r')) as Hs.
  { unfold resolveOrderBy. rewrite (H "sort") by (simpl; tauto). reflexivity. }
  unfold getBooks. rewrite Hl, Ho, Hs, (H "genre") by (simpl; tauto).
  reflexivity.
Qed.

(** C10.  A limit or offset parameter that is present but made of white
    space only is treated as absent: the invocation does exactly what it
    does for the same request without the parameter, and the parameter
    resolves to its default (limit 10, offset 0) instead of being
    rejected. *)
Theorem whitespace_only_parameter_is_absent env r key v rest :
  key = "limit" \/ key = "offset" ->
  Query r !! key = Some (v :: rest) ->
  onlySpace v ->
  Exec.run (getBooks env r) = Exec.run (getBooks env (without key r))
  /\ (key = "limit" -> resolveLimit (Query r) = inr 10)
  /\ (key = "offset" -> resolveOffset (Query r) = inr 0).
Proof.
  intros Hkey Hpresent Hspace.
  assert (TrimSpace (Get (Query r) key) = "") as Htrim.
  { unfold Get. rewrite Hpresent. now apply TrimSpace_onlySpace. }
  repeat apply conj.
  - f_equal. apply getBooks_ext. intros key' _.
    destruct (String.eqb_spec key key') as [<- | Hne].
    + now rewrite Htrim, Get_without_same.
    + now rewrite Get_without_other.
  - intros ->. now apply resolveLimit_default.
  - intros ->. now apply resolveOffset_default.
Qed.

(** ** The properties at sample invocations *)

Lemma sql_text_is_a_fixed_template_witness :
  In (sqlTemplate true SortPriceAsc, [VString "Fiction"; VInt 2; VInt 0])
     (queryCalls (snd (Exec.run (getBooks shelf fictionRequest))))
  /\ exists c limit offset,
      sortChoiceOf (TrimSpace (Get (Query fictionRequest) "sort")) = Some c
      /\ resolveLimit (Query fictionRequest) = inr limit
      /\ resolveOffset (Query fictionRequest) = inr offset
      /\ sqlTemplate true SortPriceAsc
         = sqlTemplate
             (negb (TrimSpace (Get (Query fictionRequest) "genre") =? "")%string) c
      /\ In (sqlTemplate true SortPriceAsc) sqlTemplates
      /\ [VString "Fiction"; VInt 2; VInt 0]
         = boundArgs (TrimSpace (Get (Query fictionRequest) "genre")) limit offset.
Proof.
  split.
  - vm_compute. left. reflexivity.
  - apply (sql_text_is_a_fixed_template shelf fictionRequest).
    vm_compute. left. reflexivity.
Defined.

Lemma limit_resolution_witness :
  resolveLimit (Query (req [])) = inr 10
  /\ resolveLimit (Query (req [("limit", "+25")])) = inr 25
  /\ resolveLimit (Query (req [("limit", "5000")])) = inr 100
  /\ Exec.run (getBooks shelf (req [("limit", "0")]))
     = ((Nil, 0, Some (InvalidParameter "limit")), []).
Proof.
  repeat apply conj.
  - apply (proj1 (limit_resolution shelf (req []))).
    left. vm_compute. reflexivity.
  - apply (proj1 (proj2 (limit_resolution shelf (req [("limit", "+25")]))) 25).
    + vm_compute. reflexivity.
    + lia.
  - apply (proj1 (proj2 (proj2 (limit_resolution shelf (req [("limit", "5000")]))))
             5000).
    + vm_compute. reflexivity.
    + lia.
  - apply (proj2 (proj2 (proj2 (limit_resolution shelf (req [("limit", "0")]))))).
    split.
    + vm_compute. discriminate.
    + intros v Hv. vm_compute in Hv. injection Hv as <-. lia.
Defined.

Lemma zero_rows_give_nil_and_json_null_witness :
  fst (Exec.run (getBooks emptyShelf (req [("genre", "Nope")]))) = (Nil, 3, None)
  /\ fst (makeGetBooksHandler emptyShelf (req [("genre", "Nope")])) =
     http.mkResponse 200 "application/json" "3ms" (http.JSON json.Null).
Proof.
  apply (zero_rows_give_nil_and_json_null
           emptyShelf (req [("genre", "Nope")])
           (sqlTemplate true SortNone) [VString "Nope"; VInt 10; VInt 0]
           (mkRows [] None)).
  - vm_compute. left. reflexivity.
  - reflexivity.
  - reflexivity.
  - reflexivity.
Defined.

Lemma sql_statement_shape_witness :
  exists query args,
    queryCalls (snd (Exec.run (getBooks shelf fictionRequest))) = [(query, args)]
    /\ (TrimSpace (Get (Query fictionRequest) "genre") = "" ->
        query = "SELECT id, title, price, genre FROM books"
                  ++ orderClause (TrimSpace (Get (Query fictionRequest) "sort"))
                  ++ " LIMIT $1 OFFSET $2"
        /\ args = [VInt 2; VInt 0])
    /\ (TrimSpace (Get (Query fictionRequest) "genre") <> "" ->
        query = "SELECT id, title, price, genre FROM books WHERE genre = $1"
                  ++ orderClause (TrimSpace (Get (Query fictionRequest) "sort"))
                  ++ " LIMIT $2 OFFSET $3"
        /\ args = [VString (TrimSpace (Get (Query fictionRequest) "genre"));
                   VInt 2; VInt 0]).
Proof.
  apply (sql_statement_shape shelf fictionRequest 2 0 "price ASC").
  - vm_compute. reflexivity.
  - vm_compute. reflexivity.
  - vm_compute. reflexivity.
Defined.

Lemma invalid_parameter_before_database_witness :
  exists name,
    In name ["limit"; "offset"; "sort"]
    /\ Exec.run (getBooks shelf (req [("offset", "-1")]))
       = ((Nil, 0, Some (InvalidParameter name)), [])
    /\ queryCalls (snd (Exec.run (getBooks shelf (req [("offset", "-1")])))) = [].
Proof.
  apply (invalid_parameter_before_database shelf (req [("offset", "-1")])).
  right. left. split.
  - vm_compute. discriminate.
  - intros v Hv. vm_compute in Hv. injection Hv as <-. lia.
Defined.

Lemma sort_validation_witness :
  In (TrimSpace (Get (Query fictionRequest) "sort")) sortValues
  /\ Exec.run (getBooks shelf (req [("sort", "title")]))
     = ((Nil, 0, Some (InvalidParameter "sort")), [])
  /\ (sqlTemplate true SortNone = sqlTemplate false SortNone
      \/ sqlTemplate true SortNone = sqlTemplate true SortNone).
Proof.
  repeat apply conj.
  - apply (proj1 (proj1 (sort_validation shelf fictionRequest))).
    exists "price ASC". vm_compute. reflexivity.
  - apply (proj1 (proj2 (sort_validation shelf (req [("sort", "title")]))) 10 0).
    + vm_compute. reflexivity.
    + vm_compute. reflexivity.
    + unfold sortMalformed. vm_compute. intuition discriminate.
  - apply (proj2 (proj2 (sort_validation emptyShelf (req [("genre", "Nope")])))
             eq_refl (sqlTemplate true SortNone) [VString "Nope"; VInt 10; VInt 0]).
    vm_compute. left. reflexivity.
Defined.

Lemma decode_failure_returns_no_books_witness :
  exists e,
    (In (ScanErr e) (Rows_next (mkRows
           [ScanOk (mkBook 2 "B" 10 "Fiction");
            ScanErr (SqlError "sql: Scan error on column index 1")] None))
     \/ Rows_Err (mkRows
           [ScanOk (mkBook 2 "B" 10 "Fiction");
            ScanErr (SqlError "sql: Scan error on column index 1")] None) = Some e)
    /\ fst (Exec.run (getBooks brokenShelf fictionRequest)) = (Nil, 3, Some e).
Proof.
  apply (decode_failure_returns_no_books
           brokenShelf fictionRequest
           (sqlTemplate true SortPriceAsc) [VString "Fiction"; VInt 2; VInt 0]).
  - vm_compute. left. reflexivity.
  - reflexivity.
  - left. right. left. eexists. reflexivity.
Defined.

Lemma log_record_after_validation_witness :
  (exists query args,
      queryCalls (snd (Exec.run (getBooks brokenShelf fictionRequest)))
      = [(query, args)]
      /\ snd (fst (fst (Exec.run (getBooks brokenShelf fictionRequest)))) = 3
      /\ logRecords (snd (Exec.run (getBooks brokenShelf fictionRequest)))
         = [logLine query args 3])
  /\ logRecords (snd (Exec.run (getBooks shelf (req [("limit", "0")])))) = [].
Proof.
  split.
  - apply (proj1 (log_record_after_validation brokenShelf fictionRequest)
             2 0 "price ASC").
    + vm_compute. reflexivity.
    + vm_compute. reflexivity.
    + vm_compute. reflexivity.
  - apply (proj2 (log_record_after_validation shelf (req [("limit", "0")]))).
    left. split.
    + vm_compute. discriminate.
    + intros v Hv. vm_compute in Hv. injection Hv as <-. lia.
Defined.

Lemma offset_resolution_witness :
  resolveOffset (Query (req [])) = inr 0
  /\ resolveOffset (Query (req [("offset", "40")])) = inr 40
  /\ Exec.run (getBooks shelf (req [("offset", "-1")]))
     = ((Nil, 0, Some (InvalidParameter "offset")), []).
Proof.
  repeat apply conj.
  - apply (proj1 (offset_resolution shelf (req []))).
    left. vm_compute. reflexivity.
  - apply (proj1 (proj2 (offset_resolution shelf (req [("offset", "40")]))) 40).
    + vm_compute. reflexivity.
    + lia.
  - apply (proj2 (proj2 (offset_resolution shelf (req [("offset", "-1")]))) 10).
    + vm_compute. reflexivity.
    + split.
      * vm_compute. discriminate.
      * intros v Hv. vm_compute in Hv. injection Hv as <-. lia.
Defined.

Lemma whitespace_only_parameter_is_absent_witness :
  Exec.run (getBooks shelf (req [("limit", blank); ("genre", "Fiction")]))
  = Exec.run (getBooks shelf
                (without "limit" (req [("limit", blank); ("genre", "Fiction")])))
  /\ ("limit" = "limit" ->
      resolveLimit (Query (req [("limit", blank); ("genre", "Fiction")])) = inr 10)
  /\ ("limit" = "offset" ->
      resolveOffset (Query (req [("limit", blank); ("genre", "Fiction")])) = inr 0).
Proof.
  apply (whitespace_only_parameter_is_absent
           shelf (req [("limit", blank); ("genre", "Fiction")]) "limit" blank []).
  - left. reflexivity.
  - vm_compute. reflexivity.
  - exists [0xA0; 0x09]. split.
    + repeat constructor.
    + vm_compute. reflexivity.
Defined.


(** * Further properties of the code *)

(** ** What reaches the database *)

Lemma Atoi_range s v : Atoi s = Some v -> minInt <= v <= maxInt.
Proof.
  unfold Atoi. destruct s as [| c t]; [discriminate |]. cbn zeta.
  generalize (if Ascii.eqb c "-" || Ascii.eqb c "+" then t else String c t).
  intros body. destruct body as [| c' t']; [discriminate |].
  destruct (parseDigits (String c' t') 0) as [n |]; [| discriminate].
  generalize (if Ascii.eqb c "-" then - n else n). intros w.
  destruct (Z.leb_spec minInt w); [| discriminate].
  destruct (Z.leb_spec w maxInt); [| discriminate].
  cbn [andb]. intros [= <-]. lia.
Qed.

Lemma resolveLimit_range q limit :
  resolveLimit q = inr limit -> 1 <= limit <= maxLimit.
Proof.
  unfold resolveLimit, maxLimit, defaultLimit. cbn zeta.
  destruct (negb _).
  - destruct (Atoi _) as [v |]; [| discriminate].
    destruct (Z.gtb_spec v 0); [| discriminate].
    destruct (Z.gtb_spec v 100); intros [= <-]; lia.
  - intros [= <-]. cbn. lia.
Qed.

Lemma resolveOffset_range q offset :
  resolveOffset q = inr offset -> 0 <= offset <= maxInt.
Proof.
  unfold resolveOffset. cbn zeta.
  destruct (negb _).
  - destruct (Atoi _) as [v |] eqn:Ha; [| discriminate].
    apply Atoi_range in Ha.
    destruct (Z.geb_spec v 0); [| discriminate]. intros [= <-]. lia.
  - intros [= <-]. unfold maxInt, intSize. cbn. lia.
Qed.

(** X1.  Whatever the request, the limit bound to a statement that reaches
    the database lies between 1 and 100 and the offset between 0 and the
    largest [int]. *)
Theorem bound_arguments_in_range env r query args :
  In (query, args) (queryCalls (snd (Exec.run (getBooks env r)))) ->
  exists limit offset,
    args = boundArgs (TrimSpace (Get (Query r) "genre")) limit offset
    /\ 1 <= limit <= 100
    /\ 0 <= offset <= maxInt.
Proof.
  intros Hin.
  destruct (issued_query_inv env r query args Hin)
    as (_ & limit & offset & _ & Hl & Ho & _ & Ha).
  exists limit, offset. split; [exact Ha |]. split.
  - exact (resolveLimit_range _ _ Hl).
  - exact (resolveOffset_range _ _ Ho).
Qed.

Lemma bound_arguments_in_range_witness :
  exists limit offset,
    [VString "Fiction"; VInt 100; VInt 7]
    = boundArgs
        (TrimSpace (Get (Query (req [("limit", "5000"); ("offset", "7");
                                     ("genre", "Fiction")])) "genre"))
        limit offset
    /\ 1 <= limit <= 100
    /\ 0 <= offset <= maxInt.
Proof.
  apply (bound_arguments_in_range
           shelf (req [("limit", "5000"); ("offset", "7"); ("genre", "Fiction")])
           (sqlTemplate true SortNone)).
  vm_compute. left. reflexivity.
Defined.

(** X2.  An invocation does one of three things: nothing at all; one
    database call answered with an error, then one log record; or one
    database call answered with a cursor, then one log record, then the
    release of that cursor as its last act, whichever way the reading of
    the rows ends. *)
Theorem one_call_and_cursor_released env r :
  let tr := snd (Exec.run (getBooks env r)) in
  tr = []
  \/ (exists query args line err,
         tr = [EvQueryContext query args; EvLogPrintf line]
         /\ QueryContext env query args = inl err)
  \/ (exists query args line rows,
         tr = [EvQueryContext query args; EvLogPrintf line; EvRowsClose]
         /\ QueryContext env query args = inr rows).
Proof.
  cbn zeta.
  destruct (getBooks_cases env r)
    as [(e & _ & Hrun)
       | (limit & offset & orderBy & q & a & _ & _ & _ & _ & Hrun)];
    rewrite Hrun; cbn [snd].
  - now left.
  - right. destruct (QueryContext env q a) as [err | rows] eqn:Hq.
    + left. exists q, a, (logLine q a (sinceMs env)), err. now rewrite Hq.
    + right. exists q, a, (logLine q a (sinceMs env)), rows. now rewrite Hq.
Qed.

(** ** The handler's answer *)

Lemma scanRows_decoded books :
  forall acc,
    scanRows (List.map ScanOk books) acc =
    inr (match books with
         | [] => acc
         | _ :: _ => Slice (elems acc ++ books)%list
         end).
Proof.
  induction books as [| b rest IH]; intros acc; [reflexivity |].
  cbn [List.map scanRows]. rewrite IH.
  destruct rest; cbn; [reflexivity |]. now rewrite <- app_assoc.
Qed.

Lemma scanRows_all_decoded rows :
  forall acc res,
    scanRows rows acc = inr res -> exists books, List.map ScanOk books = rows.
Proof.
  induction rows as [| [b | e] rest IH]; intros acc res H.
  - now exists [].
  - cbn in H. destruct (IH _ _ H) as [books <-]. now exists (b :: books).
  - discriminate.
Qed.

Lemma getBooks_answered env r books :
  answered env r books ->
  Exec.run (getBooks env r) =
    ((match books with [] => Nil | _ :: _ => Slice books end, sinceMs env, None),
     match Exec.run (getBooks env r) with (_, tr) => tr end).
Proof.
  intros (limit & offset & orderBy & q & a & rows
          & Hl & Ho & Hs & Hb & Hq & Hrows & Herr).
  rewrite (getBooks_accepted env r _ _ _ _ _ Hl Ho Hs Hb).
  rewrite Hq. cbn [afterQuery fst snd].
  rewrite <- Hrows, scanRows_decoded, Herr. reflexivity.
Qed.

Lemma getBooks_no_error_inv env r :
  snd (fst (Exec.run (getBooks env r))) = None ->
  exists books, answered env r books.
Proof.
  intros Hok.
  destruct (getBooks_cases env r)
    as [(e & _ & Hrun)
       | (limit & offset & orderBy & q & a & Hl & Ho & Hs & Hb & Hrun)];
    rewrite Hrun in Hok; cbn [fst snd] in Hok; [discriminate |].
  destruct (QueryContext env q a) as [err | rows] eqn:Hq; [discriminate |].
  cbn [afterQuery fst] in Hok.
  destruct (scanRows (Rows_next rows) Nil) as [err | res] eqn:Hscan;
    [discriminate |].
  destruct (Rows_Err rows) as [err |] eqn:Herr; [discriminate |].
  destruct (scanRows_all_decoded _ _ _ Hscan) as [books Hbooks].
  exists books, limit, offset, orderBy, q, a, rows. auto 10.
Qed.

Lemma handler_by_result env r :
  fst (makeGetBooksHandler env r) =
    match fst (Exec.run (getBooks env r)) with
    | (books, ms, Some e) =>
      http.mkResponse 400 "text/plain; charset=utf-8" (Itoa ms ++ "ms")
                      (http.Text (Error e ++ newline))
    | (books, ms, None) =>
      http.mkResponse 200 "application/json" (Itoa ms ++ "ms")
                      (http.JSON (json.Marshal books))
    end.
Proof.
  unfold makeGetBooksHandler.
  destruct (Exec.run (getBooks env r)) as [[[books ms] [e |]] tr]; reflexivity.
Qed.

(** X3.  The handler answers 200 exactly when the three parameters are
    valid, the database answers the statement with a cursor, every row
    decodes and the cursor reports no terminal error; in every other case it
    answers 400, and it never sends another status. *)
Theorem handler_status env r :
  let resp := fst (makeGetBooksHandler env r) in
  (http.StatusCode resp = 200 <-> exists books, answered env r books)
  /\ (http.StatusCode resp = 200 \/ http.StatusCode resp = 400).
Proof.
  cbn zeta. rewrite handler_by_result.
  destruct (fst (Exec.run (getBooks env r))) as [[books ms] [e |]] eqn:Hres;
    cbn [http.StatusCode].
  - split; [| now right]. split; [discriminate |].
    intros [bs Hans]. apply getBooks_answered in Hans.
    rewrite Hans in Hres. discriminate.
  - split; [| now left]. split; [| reflexivity]. intros _.
    apply getBooks_no_error_inv. now rewrite Hres.
Qed.

(** X4.  When the invocation is answered with at least one row, [getBooks]
    returns exactly the decoded books, in the cursor's order, with the
    measured time and no error, and the handler's body is the JSON array of
    one object per book in the same order. *)
Theorem decoded_books_are_served_in_order env r books :
  answered env r books ->
  books <> [] ->
  fst (Exec.run (getBooks env r)) = (Slice books, sinceMs env, None)
  /\ fst (makeGetBooksHandler env r) =
     http.mkResponse 200 "application/json" (Itoa (sinceMs env) ++ "ms")
                     (http.JSON (json.Array (List.map json.ofBook books))).
Proof.
  intros Hans Hne.
  assert (fst (Exec.run (getBooks env r)) = (Slice books, sinceMs env, None))
    as Hres.
  { rewrite (getBooks_answered env r books Hans). cbn [fst].
    destruct books; [congruence | reflexivity]. }
  split; [exact Hres |].
  rewrite handler_by_result, Hres. reflexivity.
Qed.

Lemma decoded_books_are_served_in_order_witness :
  fst (Exec.run (getBooks shelf fictionRequest))
  = (Slice [mkBook 2 "B" 10 "Fiction"; mkBook 3 "C" 20 "Fiction"], 3, None)
  /\ fst (makeGetBooksHandler shelf fictionRequest) =
     http.mkResponse 200 "application/json" "3ms"
       (http.JSON (json.Array
          (List.map json.ofBook
             [mkBook 2 "B" 10 "Fiction"; mkBook 3 "C" 20 "Fiction"]))).
Proof.
  apply (decoded_books_are_served_in_order shelf fictionRequest).
  - exists 2, 0, "price ASC", (sqlTemplate true SortPriceAsc),
      [VString "Fiction"; VInt 2; VInt 0], (mkRows sampleBooks None).
    repeat split; vm_compute; reflexivity.
  - discriminate.
Defined.

(** X5.  The [X-Query-Time] header is "0ms" on every request rejected by
    the validation, and the measured milliseconds followed by "ms" on every
    request whose statement reached the database, whether the call, the
    decoding or the cursor then failed or not. *)
Theorem query_time_header env r :
  let resp := fst (makeGetBooksHandler env r) in
  (limitMalformed (Query r) \/ offsetMalformed (Query r)
   \/ sortMalformed (Query r) ->
   http.XQueryTime resp = "0ms")
  /\ (forall query args,
         In (query, args) (queryCalls (snd (Exec.run (getBooks env r)))) ->
         http.XQueryTime resp = Itoa (sinceMs env) ++ "ms").
Proof.
  cbn zeta. rewrite handler_by_result. split.
  - intros Hbad.
    destruct (getBooks_cases env r)
      as [(e & _ & Hrun)
         | (limit & offset & orderBy & q & a & Hl & Ho & Hs & _)].
    + rewrite Hrun. reflexivity.
    + destruct Hbad as [Hb | [Hb | Hb]].
      * rewrite (resolveLimit_malformed _ Hb) in Hl. discriminate.
      * rewrite (resolveOffset_malformed _ Hb) in Ho. discriminate.
      * rewrite (resolveOrderBy_malformed _ Hb) in Hs. discriminate.
  - intros query args Hin.
    rewrite (run_after_issue env r query args Hin). cbn [fst].
    destruct (QueryContext env query args) as [err | rows];
      cbn [afterQuery fst]; [reflexivity |].
    destruct (scanRows (Rows_next rows) Nil) as [err | books]; [reflexivity |].
    destruct (Rows_Err rows); reflexivity.
Qed.

Lemma query_time_header_witness :
  http.XQueryTime (fst (makeGetBooksHandler shelf (req [("limit", "0")]))) = "0ms"
  /\ http.XQueryTime (fst (makeGetBooksHandler brokenShelf fictionRequest))
     = Itoa (sinceMs brokenShelf) ++ "ms".
Proof.
  split.
  - apply (proj1 (query_time_header shelf (req [("limit", "0")]))).
    left. split.
    + vm_compute. discriminate.
    + intros v Hv. vm_compute in Hv. injection Hv as <-. lia.
  - apply (proj2 (query_time_header brokenShelf fictionRequest)
             (sqlTemplate true SortPriceAsc) [VString "Fiction"; VInt 2; VInt 0]).
    vm_compute. left. reflexivity.
Defined.

(** X6.  When the database answers the statement with an error, [getBooks]
    returns that error with the nil slice and the measured time, having
    written its log record and with no cursor to release, and the handler
    answers 400 with the error's text as plain text: a failure of the
    database is reported to the client like a bad parameter. *)
Theorem database_error_is_bad_request env r query args err :
  In (query, args) (queryCalls (snd (Exec.run (getBooks env r)))) ->
  QueryContext env query args = inl err ->
  Exec.run (getBooks env r) =
    ((Nil, sinceMs env, Some err),
     [EvQueryContext query args;
      EvLogPrintf (logLine query args (sinceMs env))])
  /\ fst (makeGetBooksHandler env r) =
     http.mkResponse 400 "text/plain; charset=utf-8"
                     (Itoa (sinceMs env) ++ "ms")
                     (http.Text (Error err ++ newline)).
Proof.
  intros Hin Hq.
  assert (Exec.run (getBooks env r) =
            ((Nil, sinceMs env, Some err),
             [EvQueryContext query args;
              EvLogPrintf (logLine query args (sinceMs env))])) as Hrun.
  { rewrite (run_after_issue env r query args Hin), Hq. reflexivity. }
  split; [exact Hrun |].
  rewrite handler_by_result, Hrun. reflexivity.
Qed.

Lemma database_error_is_bad_request_witness :
  Exec.run (getBooks downShelf fictionRequest) =
    ((Nil, 5, Some (SqlError "pq: connection refused")),
     [EvQueryContext (sqlTemplate true SortPriceAsc)
                     [VString "Fiction"; VInt 2; VInt 0];
      EvLogPrintf (logLine (sqlTemplate true SortPriceAsc)
                           [VString "Fiction"; VInt 2; VInt 0] 5)])
  /\ fst (makeGetBooksHandler downShelf fictionRequest) =
     http.mkResponse 400 "text/plain; charset=utf-8" (Itoa 5 ++ "ms")
                     (http.Text (Error (SqlError "pq: connection refused")
                                   ++ newline)).
Proof.
  apply (database_error_is_bad_request downShelf fictionRequest).
  - vm_compute. left. reflexivity.
  - reflexivity.
Defined.

Lemma handler_status_witness :
  http.StatusCode (fst (makeGetBooksHandler shelf fictionRequest)) = 200.
Proof.
  apply (proj2 (proj1 (handler_status shelf fictionRequest))).
  exists [mkBook 2 "B" 10 "Fiction"; mkBook 3 "C" 20 "Fiction"].
  exists 2, 0, "price ASC", (sqlTemplate true SortPriceAsc),
    [VString "Fiction"; VInt 2; VInt 0], (mkRows sampleBooks None).
  repeat split; vm_compute; reflexivity.
Defined.

(** ** How the request is read *)

Lemma Get_withValues_other key key' vs r :
  key <> key' -> Get (Query (withValues key vs r)) key' = Get (Query r) key'.
Proof.
  intros Hne. unfold Get, withValues. cbn [Query]. now rewrite lookup_insert_ne.
Qed.

Lemma Get_withValues_same key vs r :
  Get (Query (withValues key vs r)) key = match vs with v :: _ => v | [] => "" end.
Proof.
  unfold Get, withValues. cbn [Query]. rewrite lookup_insert_eq.
  now destruct vs.
Qed.

(** X7.  Of a parameter given several times only the first value counts:
    the invocation and the response are those of the request that carries
    this first value alone. *)
Theorem only_first_value_counts env r key v rest :
  Query r !! key = Some (v :: rest) ->
  Exec.run (getBooks env r) = Exec.run (getBooks env (withValues key [v] r))
  /\ makeGetBooksHandler env r = makeGetBooksHandler env (withValues key [v] r).
Proof.
  intros Hpresent.
  assert (getBooks env r = getBooks env (withValues key [v] r)) as Heq.
  { apply getBooks_ext. intros key' _.
    destruct (String.eqb_spec key key') as [<- | Hne].
    - rewrite Get_withValues_same. unfold Get. now rewrite Hpresent.
    - now rewrite Get_withValues_other. }
  split.
  - now rewrite Heq.
  - unfold makeGetBooksHandler. now rewrite Heq.
Qed.

Lemma only_first_value_counts_witness :
  Exec.run (getBooks shelf
              (mkRequest {[ "limit" := ["5"; "abc"] ]}))
  = Exec.run (getBooks shelf
                (withValues "limit" ["5"]
                   (mkRequest {[ "limit" := ["5"; "abc"] ]})))
  /\ makeGetBooksHandler shelf (mkRequest {[ "limit" := ["5"; "abc"] ]})
     = makeGetBooksHandler shelf
         (withValues "limit" ["5"] (mkRequest {[ "limit" := ["5"; "abc"] ]})).
Proof.
  apply (only_first_value_counts
           shelf (mkRequest {[ "limit" := ["5"; "abc"] ]}) "limit" "5" ["abc"]).
  vm_compute. reflexivity.
Defined.

(** X8.  Parameters other than limit, offset, genre and sort are not read:
    adding one, changing its values or removing it changes neither the
    invocation nor the response.  The names are matched exactly, so "Limit"
    is such a parameter. *)
Theorem other_parameters_are_ignored env r key vs :
  ~ In key parameterKeys ->
  Exec.run (getBooks env (withValues key vs r)) = Exec.run (getBooks env r)
  /\ Exec.run (getBooks env (without key r)) = Exec.run (getBooks env r)
  /\ makeGetBooksHandler env (withValues key vs r) = makeGetBooksHandler env r
  /\ makeGetBooksHandler env (without key r) = makeGetBooksHandler env r.
Proof.
  intros Hother.
  assert (getBooks env (withValues key vs r) = getBooks env r) as Hw.
  { apply getBooks_ext. intros key' Hin.
    rewrite Get_withValues_other; [reflexivity |].
    intros ->. now apply Hother. }
  assert (getBooks env (without key r) = getBooks env r) as Hd.
  { apply getBooks_ext. intros key' Hin.
    rewrite Get_without_other; [reflexivity |].
    intros ->. now apply Hother. }
  unfold makeGetBooksHandler. rewrite Hw, Hd. auto.
Qed.

Lemma other_parameters_are_ignored_witness :
  Exec.run (getBooks shelf (withValues "Limit" ["1"] fictionRequest))
  = Exec.run (getBooks shelf fictionRequest)
  /\ Exec.run (getBooks shelf (without "Limit" fictionRequest))
     = Exec.run (getBooks shelf fictionRequest)
  /\ makeGetBooksHandler shelf (withValues "Limit" ["1"] fictionRequest)
     = makeGetBooksHandler shelf fictionRequest
  /\ makeGetBooksHandler shelf (without "Limit" fictionRequest)
     = makeGetBooksHandler shelf fictionRequest.
Proof.
  apply (other_parameters_are_ignored shelf fictionRequest "Limit" ["1"]).
  unfold parameterKeys. simpl. intuition discriminate.
Defined.

(** ** Startup *)

(** X9.  [main] opens the database exactly when DATABASE_URL is set to a
    non-empty string, and then with the postgres driver and that string; it
    starts serving exactly when, moreover, opening and pinging the database
    succeed, and then it has registered "/books" and listens on ":8080". *)
Theorem server_starts_iff_configured h :
  let dsn := Getenv h "DATABASE_URL" in
  (forall driver name,
      In (EvSqlOpen driver name) (fst (main h))
      <-> dsn <> "" /\ driver = "postgres" /\ name = dsn)
  /\ (forall addr,
         In (EvListenAndServe addr) (fst (main h))
         <-> dsn <> "" /\ sql_Open h "postgres" dsn = None /\ db_Ping h = None
             /\ addr = ":8080")
  /\ (forall addr,
         In (EvListenAndServe addr) (fst (main h)) ->
         exists rest,
           fst (main h) =
           ([EvSqlOpen "postgres" dsn; EvPing; EvHandleFunc "/books";
             EvLog "listening on :8080"; EvListenAndServe ":8080"] ++ rest)%list).
Proof.
  cbn zeta. unfold main, after, logFatal.
  destruct (String.eqb_spec (Getenv h "DATABASE_URL") "") as [E | Hne].
  { repeat split; intros; cbn in *; intuition congruence. }
  destruct (sql_Open h "postgres" (Getenv h "DATABASE_URL")) as [e1 |].
  { repeat split; intros; cbn in *; intuition congruence. }
  destruct (db_Ping h) as [e2 |].
  { repeat split; intros; cbn in *; intuition congruence. }
  destruct (ListenAndServe h ":8080") as [e3 |].
  - repeat split; intros; cbn in *; try (intuition congruence).
    eexists. reflexivity.
  - repeat split; intros; cbn in *; try (intuition congruence).
    eexists. reflexivity.
Qed.

(** X10.  [main] never returns and never closes the database handle: it
    either stays in [ListenAndServe] or ends the process with status 1
    through [log.Fatal], which skips the deferred [db.Close]; and the last
    thing a terminating run does is to log the reason. *)
Theorem main_never_closes_the_database h :
  ~ In EvDbClose (fst (main h))
  /\ (snd (main h) = Serving
      \/ snd (main h) = Exit 1
         /\ exists before line, fst (main h) = (before ++ [EvLog line])%list).
Proof.
  unfold main, after, logFatal.
  destruct (Getenv h "DATABASE_URL" =? "")%string.
  { split; [cbn; intuition discriminate |].
    right. split; [reflexivity |]. now exists [], "set DATABASE_URL env var (postgres DSN)". }
  destruct (sql_Open h "postgres" (Getenv h "DATABASE_URL")) as [e1 |].
  { split; [cbn; intuition discriminate |].
    right. split; [reflexivity |]. eexists [_], _. reflexivity. }
  destruct (db_Ping h) as [e2 |].
  { split; [cbn; intuition discriminate |].
    right. split; [reflexivity |]. eexists [_; _], _. reflexivity. }
  destruct (ListenAndServe h ":8080") as [e3 |].
  - split; [cbn; intuition discriminate |].
    right. split; [reflexivity |]. eexists [_; _; _; _; _], _. reflexivity.
  - split; [cbn; intuition discriminate |]. now left.
Qed.

Lemma server_starts_iff_configured_witness :
  In (EvListenAndServe ":8080") (fst (main goodHost))
  /\ exists rest,
      fst (main goodHost) =
      ([EvSqlOpen "postgres" (Getenv goodHost "DATABASE_URL"); EvPing;
        EvHandleFunc "/books"; EvLog "listening on :8080";
        EvListenAndServe ":8080"] ++ rest)%list.
Proof.
  assert (In (EvListenAndServe ":8080") (fst (main goodHost))) as Hin.
  { apply (proj2 (proj1 (proj2 (server_starts_iff_configured goodHost)) ":8080")).
    repeat split; try reflexivity. vm_compute. discriminate. }
  split; [exact Hin |].
  exact (proj2 (proj2 (server_starts_iff_configured goodHost)) ":8080" Hin).
Defined.

(** ** White space around a value *)

Lemma append_cons c (a b : string) : (String c a ++ b = String c (a ++ b))%string.
Proof. reflexivity. Qed.

Lemma append_nil (a : string) : (a ++ "" = a)%string.
Proof. induction a as [| x a IH]; [reflexivity |]. now rewrite append_cons, IH. Qed.

Lemma bytes_app s1 s2 :
  GoString.bytes (s1 ++ s2) = (GoString.bytes s1 ++ GoString.bytes s2)%list.
Proof.
  unfold GoString.bytes. induction s1 as [| c s1 IH]; [reflexivity |].
  rewrite append_cons. cbn [list_ascii_of_string List.map app]. f_equal. exact IH.
Qed.

Lemma asciiSpace_byte c :
  asciiSpace c = true ->
  GoString.byteVal c < utf8.RuneSelf
  /\ unicode.IsSpace (GoString.byteVal c) = true.
Proof.
  unfold asciiSpace, unicode.IsSpace, unicode.MaxLatin1, utf8.RuneSelf.
  cbn zeta. generalize (GoString.byteVal c). intros n H.
  rewrite orb_true_iff, andb_true_iff, !Z.leb_le, Z.eqb_eq in H.
  split; [lia |].
  destruct (Z.leb_spec n 255); [| lia].
  repeat rewrite orb_true_iff. rewrite !Z.eqb_eq. lia.
Qed.

Lemma trimLeftSpace_nil fuel : trimLeftSpace fuel [] = [].
Proof. destruct fuel; reflexivity. Qed.

Lemma trimLeftSpace_leading b fuel (s : list Z) :
  b < utf8.RuneSelf -> unicode.IsSpace b = true ->
  trimLeftSpace (S fuel) (b :: s) = trimLeftSpace fuel s.
Proof.
  intros Hb Hs. cbn [trimLeftSpace utf8.DecodeRune].
  apply Z.ltb_lt in Hb. rewrite Hb, Hs. reflexivity.
Qed.

Lemma first_lead b sz lo hi :
  utf8.first b = Some (sz, lo, hi) ->
  0x80 <= lo /\ (sz = 2 \/ sz = 3 \/ sz = 4)%nat.
Proof.
  unfold utf8.first.
  repeat match goal with
         | |- context [if ?c then _ else _] => destruct c
         end; intros [= <- <- <-] || discriminate; lia.
Qed.

(** A byte below 0x80 after the string completes no sequence. *)
Lemma DecodeRune_snoc s c :
  s <> [] -> c < 0x80 ->
  utf8.DecodeRune (s ++ [c]) = utf8.DecodeRune s.
Proof.
  intros Hs Hc.
  assert (utf8.notCont c = true) as Hnc.
  { unfold utf8.notCont. apply orb_true_iff. left. now apply Z.ltb_lt. }
  destruct s as [| s0 t]; [congruence |].
  cbn [app]. unfold utf8.DecodeRune.
  destruct (s0 <? utf8.RuneSelf); [reflexivity |].
  destruct (utf8.first s0) as [[[sz lo] hi] |] eqn:Hf; [| reflexivity].
  destruct (first_lead _ _ _ _ Hf) as [Hlo Hsz].
  assert ((c <? lo) = true) as Hclo by (apply Z.ltb_lt; lia).
  destruct t as [| s1 t1]; cbn [app].
  { now rewrite Hclo. }
  destruct ((s1 <? lo) || (hi <? s1)); [reflexivity |].
  destruct Hsz as [-> | [-> | ->]]; [reflexivity | |].
  - destruct t1 as [| s2 t2]; cbn [app]; [now rewrite Hnc | reflexivity].
  - destruct t1 as [| s2 t2]; cbn [app]; [now rewrite Hnc |].
    destruct (utf8.notCont s2); [reflexivity |].
    destruct t2 as [| s3 t3]; cbn [app]; [now rewrite Hnc | reflexivity].
Qed.

Lemma trimLeftSpace_snoc c fuel :
  c < utf8.RuneSelf -> unicode.IsSpace c = true ->
  forall s,
    (length s <= fuel)%nat ->
    trimLeftSpace (S fuel) (s ++ [c]) =
    match trimLeftSpace fuel s with
    | [] => []
    | b :: l => ((b :: l) ++ [c])%list
    end.
Proof.
  intros Hc Hsp. induction fuel as [| fuel IH]; intros s Hlen.
  - destruct s; [| cbn in Hlen; lia].
    cbn [app]. rewrite trimLeftSpace_leading by assumption. reflexivity.
  - destruct s as [| b t].
    { cbn [app]. rewrite trimLeftSpace_leading by assumption.
      now rewrite trimLeftSpace_nil. }
    change (trimLeftSpace (S (S fuel)) ((b :: t) ++ [c])) with
      (let '(r, w) := utf8.DecodeRune ((b :: t) ++ [c]) in
       if unicode.IsSpace r
       then trimLeftSpace (S fuel) (skipn w ((b :: t) ++ [c]))
       else ((b :: t) ++ [c])%list).
    rewrite DecodeRune_snoc by (congruence || exact Hc).
    cbn [trimLeftSpace].
    pose proof (DecodeRune_width (b :: t) ltac:(congruence)) as Hw.
    destruct (utf8.DecodeRune (b :: t)) as [r w]. cbn [snd] in Hw.
    destruct (unicode.IsSpace r); [| reflexivity].
    rewrite skipn_app.
    replace (w - length (b :: t))%nat with 0%nat by lia. cbn [skipn].
    apply IH. rewrite length_skipn. cbn [length] in *. lia.
Qed.

Lemma trimRightSpace_snoc c fuel s :
  c < utf8.RuneSelf -> unicode.IsSpace c = true ->
  trimRightSpace (S fuel) (s ++ [c]) = trimRightSpace fuel s.
Proof.
  intros Hc Hsp.
  assert (utf8.DecodeLastRune (s ++ [c]) = (c, 1%nat)) as Hdec.
  { unfold utf8.DecodeLastRune. rewrite rev_app_distr. cbn [rev app].
    apply Z.ltb_lt in Hc. now rewrite Hc. }
  cbn [trimRightSpace]. rewrite Hdec, Hsp.
  rewrite length_app. cbn [length].
  replace (length s + 1 - 1)%nat with (length s) by lia.
  rewrite firstn_app, firstn_all, Nat.sub_diag. cbn [firstn].
  rewrite app_nil_r. destruct s; reflexivity.
Qed.

Lemma TrimSpace_leading c s :
  asciiSpace c = true -> TrimSpace (String c s) = TrimSpace s.
Proof.
  intros H. destruct (asciiSpace_byte c H) as [Hc Hsp].
  unfold TrimSpace. cbn zeta.
  change (GoString.bytes (String c s)) with (GoString.byteVal c :: GoString.bytes s).
  cbn [length]. now rewrite trimLeftSpace_leading.
Qed.

Lemma TrimSpace_trailing c s :
  asciiSpace c = true -> TrimSpace (s ++ String c "") = TrimSpace s.
Proof.
  intros H. destruct (asciiSpace_byte c H) as [Hc Hsp].
  unfold TrimSpace. cbn zeta. rewrite bytes_app.
  change (GoString.bytes (String c "")) with [GoString.byteVal c].
  rewrite length_app. cbn [length].
  replace (length (GoString.bytes s) + 1)%nat with (S (length (GoString.bytes s)))
    by lia.
  rewrite trimLeftSpace_snoc by (assumption || lia).
  destruct (trimLeftSpace (length (GoString.bytes s)) (GoString.bytes s))
    as [| b l]; [reflexivity |].
  rewrite length_app. cbn [length].
  replace (S (length l) + 1)%nat with (S (S (length l))) by lia.
  now rewrite trimRightSpace_snoc.
Qed.

Lemma string_app_assoc (a b c : string) : ((a ++ b) ++ c = a ++ (b ++ c))%string.
Proof.
  induction a as [| x a IH]; [reflexivity |]. now rewrite !append_cons, IH.
Qed.

Lemma TrimSpace_blank_prefix pre s :
  asciiBlank pre -> TrimSpace (pre ++ s) = TrimSpace s.
Proof.
  unfold asciiBlank. induction pre as [| c pre IH]; intros H; [reflexivity |].
  cbn in H. apply andb_true_iff in H as [Hc Hrest].
  rewrite append_cons, TrimSpace_leading by exact Hc. now apply IH.
Qed.

Lemma TrimSpace_blank_suffix post :
  asciiBlank post -> forall s, TrimSpace (s ++ post) = TrimSpace s.
Proof.
  unfold asciiBlank. induction post as [| c post IH]; intros H s.
  - now rewrite append_nil.
  - cbn in H. apply andb_true_iff in H as [Hc Hrest].
    change (String c post) with (String c "" ++ post)%string.
    rewrite <- string_app_assoc, (IH Hrest).
    now apply TrimSpace_trailing.
Qed.

(** X11.  ASCII white space before and after the value of a parameter
    makes no difference: the invocation and the response are those of the
    request with the bare value. *)
Theorem surrounding_blanks_are_ignored env r key v rest pre post :
  Query r !! key = Some (v :: rest) ->
  asciiBlank pre ->
  asciiBlank post ->
  Exec.run (getBooks env (withValues key ((pre ++ v ++ post) :: rest) r))
  = Exec.run (getBooks env r)
  /\ makeGetBooksHandler env (withValues key ((pre ++ v ++ post) :: rest) r)
     = makeGetBooksHandler env r.
Proof.
  intros Hpresent Hpre Hpost.
  assert (getBooks env (withValues key ((pre ++ v ++ post) :: rest) r)
          = getBooks env r) as Heq.
  { apply getBooks_ext. intros key' _.
    destruct (String.eqb_spec key key') as [<- | Hne].
    - rewrite Get_withValues_same. unfold Get. rewrite Hpresent.
      now rewrite TrimSpace_blank_prefix, TrimSpace_blank_suffix.
    - now rewrite Get_withValues_other. }
  unfold makeGetBooksHandler. now rewrite Heq.
Qed.

Lemma surrounding_blanks_are_ignored_witness :
  Exec.run (getBooks shelf
              (withValues "limit" [("  " ++ "7" ++ " ")%string]
                 (req [("limit", "7")])))
  = Exec.run (getBooks shelf (req [("limit", "7")]))
  /\ makeGetBooksHandler shelf
       (withValues "limit" [("  " ++ "7" ++ " ")%string] (req [("limit", "7")]))
     = makeGetBooksHandler shelf (req [("limit", "7")]).
Proof.
  apply (surrounding_blanks_are_ignored
           shelf (req [("limit", "7")]) "limit" "7" [] "  " " ").
  - vm_compute. reflexivity.
  - reflexivity.
  - reflexivity.
Defined.

(** ** Decimal values *)

Lemma ofBytes_bytes s : GoString.ofBytes (GoString.bytes s) = s.
Proof.
  unfold GoString.ofBytes, GoString.bytes, GoString.byteVal.
  induction s as [| c s IH]; [reflexivity |].
  cbn [list_ascii_of_string List.map string_of_list_ascii].
  now rewrite IH, N2Z.id, ascii_N_embedding.
Qed.

(** A string whose first and last bytes are ASCII and not white space is
    left as it is. *)
Lemma TrimSpace_untouched s :
  Forall (fun b => b < utf8.RuneSelf /\ unicode.IsSpace b = false)
         (GoString.bytes s) ->
  TrimSpace s = s.
Proof.
  intros Hall. unfold TrimSpace. cbn zeta.
  assert (forall fuel, trimLeftSpace fuel (GoString.bytes s) = GoString.bytes s)
    as Hleft.
  { intros [| fuel]; [reflexivity |].
    destruct (GoString.bytes s) as [| b t]; [reflexivity |].
    inversion Hall as [| ? ? [Hb Hsp] _]; subst.
    cbn [trimLeftSpace utf8.DecodeRune].
    apply Z.ltb_lt in Hb. now rewrite Hb, Hsp. }
  rewrite Hleft.
  assert (forall fuel, trimRightSpace fuel (GoString.bytes s) = GoString.bytes s)
    as Hright.
  { intros [| fuel]; [reflexivity |].
    destruct (GoString.bytes s) as [| b t] eqn:Hb; [reflexivity |].
    cbn [trimRightSpace]. unfold utf8.DecodeLastRune.
    apply Forall_rev in Hall.
    destruct (rev (b :: t)) as [| x l] eqn:Hrev.
    { apply (f_equal (@length Z)) in Hrev. rewrite length_rev in Hrev.
      discriminate. }
    inversion Hall as [| ? ? [Hx Hsp] _]; subst.
    apply Z.ltb_lt in Hx. now rewrite Hx, Hsp. }
  rewrite Hright. apply ofBytes_bytes.
Qed.

Lemma uint_bytes_plain d :
  Forall (fun b => b < utf8.RuneSelf /\ unicode.IsSpace b = false)
         (GoString.bytes (NilEmpty.string_of_uint d)).
Proof.
  induction d; cbn [NilEmpty.string_of_uint]; constructor;
    solve [split; reflexivity | assumption].
Qed.

Lemma parseDigits_uint_acc d :
  forall p,
    parseDigits (NilEmpty.string_of_uint d) (Zpos p)
    = Some (Zpos (Pos.of_uint_acc d p)).
Proof.
  induction d as [| d IH | d IH | d IH | d IH | d IH | d IH | d IH | d IH
                  | d IH | d IH]; intros p;
    cbn [NilEmpty.string_of_uint parseDigits Pos.of_uint_acc];
    [reflexivity | ..];
    match goal with
    | |- context [digitVal ?c] =>
      let v := eval vm_compute in (digitVal c) in change (digitVal c) with v
    end;
    cbv beta iota;
    match goal with
    | |- parseDigits _ ?a = Some (Zpos (Pos.of_uint_acc _ ?q)) =>
      replace a with (Zpos q) by lia
    end;
    apply IH.
Qed.

Lemma parseDigits_uint d :
  parseDigits (NilEmpty.string_of_uint d) 0 = Some (Z.of_N (Pos.of_uint d)).
Proof.
  induction d as [| d IH | d IH | d IH | d IH | d IH | d IH | d IH | d IH
                  | d IH | d IH];
    cbn [NilEmpty.string_of_uint parseDigits Pos.of_uint];
    [reflexivity | exact IH | ..];
    match goal with
    | |- context [digitVal ?c] =>
      let v := eval vm_compute in (digitVal c) in change (digitVal c) with v
    end;
    cbv beta iota;
    match goal with
    | |- parseDigits _ ?a = _ =>
      let v := eval vm_compute in a in change a with v
    end;
    rewrite parseDigits_uint_acc; reflexivity.
Qed.

Lemma parseDigits_to_uint p :
  parseDigits (NilEmpty.string_of_uint (Pos.to_uint p)) 0 = Some (Zpos p).
Proof.
  now rewrite parseDigits_uint, DecimalPos.Unsigned.of_to.
Qed.

(** What [Itoa] prints, [Atoi] reads back. *)
Lemma Atoi_Itoa n : minInt <= n <= maxInt -> Atoi (Itoa n) = Some n.
Proof.
  intros Hrange. unfold Itoa.
  destruct n as [| p | p]; [reflexivity | |]; cbn [Z.to_int NilZero.string_of_int].
  - pose proof (parseDigits_to_uint p) as Hparse.
    pose proof (DecimalPos.Unsigned.to_uint_nonnil p) as Hnn.
    unfold NilZero.string_of_uint.
    destruct (Pos.to_uint p) as [| d | d | d | d | d | d | d | d | d | d];
      [congruence | ..];
      cbn [NilEmpty.string_of_uint] in *; unfold Atoi;
      cbn [Ascii.eqb Bool.eqb orb andb]; cbv iota; rewrite Hparse; cbv iota beta;
      destruct (Z.leb_spec minInt (Zpos p)); try lia;
      destruct (Z.leb_spec (Zpos p) maxInt); try lia; reflexivity.
  - pose proof (parseDigits_to_uint p) as Hparse.
    pose proof (DecimalPos.Unsigned.to_uint_nonnil p) as Hnn.
    unfold NilZero.string_of_uint.
    destruct (Pos.to_uint p) as [| d | d | d | d | d | d | d | d | d | d];
      [congruence | ..];
      cbn [NilEmpty.string_of_uint] in *; unfold Atoi;
      cbn [Ascii.eqb Bool.eqb orb andb]; cbv iota; rewrite Hparse; cbv iota beta;
      change (- Zpos p) with (Zneg p);
      destruct (Z.leb_spec minInt (Zneg p)); try lia;
      destruct (Z.leb_spec (Zneg p) maxInt); try lia; reflexivity.
Qed.

Lemma TrimSpace_Itoa n : TrimSpace (Itoa n) = Itoa n.
Proof.
  apply TrimSpace_untouched. unfold Itoa.
  destruct n as [| p | p]; cbn [Z.to_int NilZero.string_of_int].
  - repeat constructor.
  - unfold NilZero.string_of_uint.
    destruct (Pos.to_uint p) eqn:E; try (rewrite <- E; apply uint_bytes_plain).
    repeat constructor.
  - change (GoString.bytes (String "-" (NilZero.string_of_uint (Pos.to_uint p))))
      with (45 :: GoString.bytes (NilZero.string_of_uint (Pos.to_uint p))).
    constructor; [split; reflexivity |].
    unfold NilZero.string_of_uint.
    destruct (Pos.to_uint p) eqn:E; try (rewrite <- E; apply uint_bytes_plain).
    repeat constructor.
Qed.

(** X12.  A limit or an offset written in decimal the way Go prints an
    [int] is read back as that number: an offset from 0 to the largest
    [int] is bound as it is, a limit from 1 to the largest [int] is bound
    clamped to 100. *)
Theorem decimal_values_are_read_back r n :
  (Get (Query r) "limit" = Itoa n -> 1 <= n <= maxInt ->
   resolveLimit (Query r) = inr (Z.min n 100))
  /\ (Get (Query r) "offset" = Itoa n -> 0 <= n <= maxInt ->
      resolveOffset (Query r) = inr n).
Proof.
  assert (minInt < 0) as Hmin by reflexivity.
  split; intros Hget Hn.
  - apply resolveLimit_parsed; [| lia].
    rewrite Hget, TrimSpace_Itoa. apply Atoi_Itoa. lia.
  - apply resolveOffset_parsed; [| lia].
    rewrite Hget, TrimSpace_Itoa. apply Atoi_Itoa. lia.
Qed.

Lemma decimal_values_are_read_back_witness :
  resolveLimit (Query (req [("limit", Itoa 250); ("offset", Itoa 250)]))
  = inr (Z.min 250 100)
  /\ resolveOffset (Query (req [("limit", Itoa 250); ("offset", Itoa 250)]))
     = inr 250.
Proof.
  split.
  - apply (proj1 (decimal_values_are_read_back
                    (req [("limit", Itoa 250); ("offset", Itoa 250)]) 250)).
    + vm_compute. reflexivity.
    + vm_compute. intuition discriminate.
  - apply (proj2 (decimal_values_are_read_back
                    (req [("limit", Itoa 250); ("offset", Itoa 250)]) 250)).
    + vm_compute. reflexivity.
    + vm_compute. intuition discriminate.
Defined.

(** ** What the client sees of a failure *)

(** X13.  A request rejected by the validation is answered 400, as plain
    text, with the header "0ms" and with one of the three messages followed
    by a newline as its body, and nothing else has happened. *)
Theorem rejected_request_response env r :
  limitMalformed (Query r) \/ offsetMalformed (Query r)
  \/ sortMalformed (Query r) ->
  exists msg,
    In msg ["invalid limit"; "invalid offset"; "invalid sort value"]
    /\ makeGetBooksHandler env r =
       (http.mkResponse 400 "text/plain; charset=utf-8" "0ms"
                        (http.Text (msg ++ newline)), []).
Proof.
  intros Hbad.
  assert (exists msg,
             In msg ["invalid limit"; "invalid offset"; "invalid sort value"]
             /\ Exec.run (getBooks env r) = ((Nil, 0, Some (Errorf msg)), []))
    as (msg & Hin & Hrun).
  { destruct (getBooks_cases env r)
      as [(e & [Hl | [(limit & _ & Ho) | (limit & offset & _ & _ & Hs)]] & Hrun)
         | (limit & offset & orderBy & q & a & Hl & Ho & Hs & _)].
    - apply resolveLimit_rejects in Hl as [_ ->].
      exists "invalid limit". split; [simpl; tauto | exact Hrun].
    - apply resolveOffset_rejects in Ho as [_ ->].
      exists "invalid offset". split; [simpl; tauto | exact Hrun].
    - apply resolveOrderBy_rejects in Hs as (_ & _ & _ & ->).
      exists "invalid sort value". split; [simpl; tauto | exact Hrun].
    - destruct Hbad as [Hb | [Hb | Hb]].
      + rewrite (resolveLimit_malformed _ Hb) in Hl. discriminate.
      + rewrite (resolveOffset_malformed _ Hb) in Ho. discriminate.
      + rewrite (resolveOrderBy_malformed _ Hb) in Hs. discriminate. }
  exists msg. split; [exact Hin |].
  unfold makeGetBooksHandler. rewrite Hrun. reflexivity.
Qed.

Lemma rejected_request_response_witness :
  exists msg,
    In msg ["invalid limit"; "invalid offset"; "invalid sort value"]
    /\ makeGetBooksHandler shelf (req [("sort", "title")]) =
       (http.mkResponse 400 "text/plain; charset=utf-8" "0ms"
                        (http.Text (msg ++ newline)), []).
Proof.
  apply (rejected_request_response shelf (req [("sort", "title")])).
  right. right. unfold sortMalformed. vm_compute. intuition discriminate.
Defined.

Lemma scanRows_first_failure decoded e rest :
  forall acc,
    scanRows (List.map ScanOk decoded ++ ScanErr e :: rest) acc = inl e.
Proof.
  induction decoded as [| b decoded IH]; intros acc; [reflexivity |].
  cbn [List.map app scanRows]. apply IH.
Qed.

(** X14.  When the cursor's rows decode up to a row that fails, the error
    of that first failing row is what [getBooks] returns; when all rows
    decode and the cursor then reports a terminal error, that error is
    returned.  Either way the cursor is released after the log record, and
    the handler answers 400 with the error's text and the measured time:
    the client receives none of the rows that did decode. *)
Theorem row_failures_reach_the_client env r query args rows :
  In (query, args) (queryCalls (snd (Exec.run (getBooks env r)))) ->
  QueryContext env query args = inr rows ->
  forall decoded e,
    (exists rest,
        Rows_next rows = (List.map ScanOk decoded ++ ScanErr e :: rest)%list)
    \/ (Rows_next rows = List.map ScanOk decoded /\ Rows_Err rows = Some e) ->
    Exec.run (getBooks env r) =
      ((Nil, sinceMs env, Some e),
       [EvQueryContext query args;
        EvLogPrintf (logLine query args (sinceMs env)); EvRowsClose])
    /\ fst (makeGetBooksHandler env r) =
       http.mkResponse 400 "text/plain; charset=utf-8"
                       (Itoa (sinceMs env) ++ "ms")
                       (http.Text (Error e ++ newline)).
Proof.
  intros Hin Hq decoded e Hfail.
  assert (Exec.run (getBooks env r) =
            ((Nil, sinceMs env, Some e),
             [EvQueryContext query args;
              EvLogPrintf (logLine query args (sinceMs env)); EvRowsClose]))
    as Hrun.
  { rewrite (run_after_issue env r query args Hin), Hq.
    cbn [afterQuery fst snd].
    destruct Hfail as [[rest ->] | [-> ->]].
    - now rewrite scanRows_first_failure.
    - now rewrite scanRows_decoded. }
  split; [exact Hrun |].
  rewrite handler_by_result, Hrun. reflexivity.
Qed.

Lemma row_failures_reach_the_client_witness :
  Exec.run (getBooks brokenShelf fictionRequest) =
    ((Nil, sinceMs brokenShelf,
      Some (SqlError "sql: Scan error on column index 1")),
     [EvQueryContext (sqlTemplate true SortPriceAsc)
                     [VString "Fiction"; VInt 2; VInt 0];
      EvLogPrintf (logLine (sqlTemplate true SortPriceAsc)
                           [VString "Fiction"; VInt 2; VInt 0]
                           (sinceMs brokenShelf));
      EvRowsClose])
  /\ fst (makeGetBooksHandler brokenShelf fictionRequest) =
     http.mkResponse 400 "text/plain; charset=utf-8"
       (Itoa (sinceMs brokenShelf) ++ "ms")
       (http.Text (Error (SqlError "sql: Scan error on column index 1")
                     ++ newline)).
Proof.
  refine (row_failures_reach_the_client
            brokenShelf fictionRequest
            (sqlTemplate true SortPriceAsc) [VString "Fiction"; VInt 2; VInt 0]
            (mkRows [ScanOk (mkBook 2 "B" 10 "Fiction");
                     ScanErr (SqlError "sql: Scan error on column index 1")] None)
            _ _ [mkBook 2 "B" 10 "Fiction"] _ _).
  - vm_compute. left. reflexivity.
  - reflexivity.
  - left. exists []. reflexivity.
Defined.
